(** * The OpenGL sampler of modules/video_output/opengl/sampler.c

    A shallow embedding of the matrix-building and per-frame update code of
    the sampler, with theorems about the colour conversion matrix, the
    orientation matrix, the 2x3 matrix product and the change detection of
    the composite picture-to-texture matrix.

    C [float] is IEEE-754 binary32 and C [double] is binary64; both are
    modelled exactly with the executable [spec_float] operations of the
    standard library, under round-to-nearest-even and with each operation
    evaluated in the precision of its C type (FLT_EVAL_METHOD 0). *)

From Stdlib Require Import ZArith List Bool Lia QArith Qabs String.
From Stdlib Require Import Floats.SpecFloat.
Import ListNotations.

Local Open Scope Z_scope.

(** ** IEEE-754 arithmetic of the C types *)

Module F32.
Definition prec : Z := 24.
Definition emax : Z := 128.

Definition t : Type := spec_float.

Definition add : t -> t -> t := SFadd prec emax.
Definition sub : t -> t -> t := SFsub prec emax.
Definition mul : t -> t -> t := SFmul prec emax.
Definition div : t -> t -> t := SFdiv prec emax.

(** Conversion of a C integer to [float]. *)
Definition of_Z (z : Z) : t := binary_normalize prec emax z 0 false.

Definition zero : t := S754_zero false.
End F32.

Module F64.
Definition prec : Z := 53.
Definition emax : Z := 1024.

Definition t : Type := spec_float.

Definition add : t -> t -> t := SFadd prec emax.
Definition sub : t -> t -> t := SFsub prec emax.
Definition mul : t -> t -> t := SFmul prec emax.
Definition div : t -> t -> t := SFdiv prec emax.

Definition of_Z (z : Z) : t := binary_normalize prec emax z 0 false.

(** [sqrt] of math.h, on [double]. *)
Definition sqrt : t -> t := SFsqrt prec emax.

(** A decimal literal [n / 10^d] of the source, correctly rounded. *)
Definition lit (n : Z) (d : Z) : t := div (of_Z n) (of_Z (10 ^ d)).

Definition zero : t := S754_zero false.
End F64.

(** [(float) x] for a [double] x, and the implicit promotion back. *)
Definition double_to_float (x : F64.t) : F32.t :=
  match x with
  | S754_finite s m e => binary_round F32.prec F32.emax s m e
  | _ => x
  end.

Definition float_to_double (x : F32.t) : F64.t :=
  match x with
  | S754_finite s m e => binary_round F64.prec F64.emax s m e
  | _ => x
  end.

(** The exact rational value of a finite float (0 for the others). *)
Definition SF2Q (x : spec_float) : Q :=
  match x with
  | S754_finite s m e =>
      let v := if s then Zneg m else Zpos m in
      if 0 <=? e then inject_Z (v * 2 ^ e)
      else Qmake v (Z.to_pos (2 ^ (- e)))
  | _ => 0%Q
  end.

Definition is_finite (x : spec_float) : bool :=
  match x with
  | S754_finite _ _ _ | S754_zero _ => true
  | _ => false
  end.

(** ** C arrays of floats

    A [float m[n]] is a list of length n; [m[i]] reads with [get] and
    [m[i] = v] writes with [set]. *)

Definition get (m : list F32.t) (i : nat) : F32.t := nth i m F32.zero.

Fixpoint set {A : Type} (m : list A) (i : nat) (v : A) : list A :=
  match m, i with
  | [], _ => []
  | _ :: tl, O => v :: tl
  | x :: tl, S i' => x :: set tl i' v
  end.

(** [memcpy(dst + doff, src + soff, n * sizeof(float))] on disjoint ranges. *)
Definition memcpy (dst : list F32.t) (doff : nat) (src : list F32.t)
    (soff n : nat) : list F32.t :=
  fold_left (fun d i => set d (doff + i) (get src (soff + i))) (seq 0 n) dst.

(** [memset(m, 0, sizeof m)] and what [calloc] leaves in a float array. *)
Definition zeros (n : nat) : list F32.t := repeat F32.zero n.

(** ** Colour conversion matrix *)

(** The enumerations of vlc_es.h that the sampler switches on. *)
Inductive video_color_space_t :=
| COLOR_SPACE_UNDEF | COLOR_SPACE_BT601 | COLOR_SPACE_BT709 | COLOR_SPACE_BT2020.

Inductive video_color_range_t :=
| COLOR_RANGE_UNDEF | COLOR_RANGE_FULL | COLOR_RANGE_LIMITED.

Definition video_color_range_eqb (a b : video_color_range_t) : bool :=
  match a, b with
  | COLOR_RANGE_UNDEF, COLOR_RANGE_UNDEF
  | COLOR_RANGE_FULL, COLOR_RANGE_FULL
  | COLOR_RANGE_LIMITED, COLOR_RANGE_LIMITED => true
  | _, _ => false
  end.

(** Initialisers of the static tables are constant expressions of type
    [double] (or [int]), converted to [float] when stored. *)
Definition dbl (z : Z) : F64.t := F64.of_Z z.
Definition flt (x : F64.t) : F32.t := double_to_float x.

Definition MATRIX_COLOR_RANGE_LIMITED : list F32.t :=
  let s219 := F64.div (dbl 255) (dbl 219) in
  let s224 := F64.div (dbl 255) (dbl 224) in
  let bias (d : Z) (n : Z) :=
    (* -255.0/d * n.0/255 parses as ((-255.0 / d) * n.0) / 255 *)
    F64.div (F64.mul (F64.div (SFopp (dbl 255)) (dbl d)) (dbl n)) (dbl 255) in
  [ flt s219; F32.of_Z 0; F32.of_Z 0; flt (bias 219 16);
    F32.of_Z 0; flt s224; F32.of_Z 0; flt (bias 224 128);
    F32.of_Z 0; F32.of_Z 0; flt s224; flt (bias 224 128) ].

Definition MATRIX_COLOR_RANGE_FULL : list F32.t :=
  let half := F64.div (SFopp (dbl 128)) (dbl 255) in
  [ F32.of_Z 1; F32.of_Z 0; F32.of_Z 0; F32.of_Z 0;
    F32.of_Z 0; F32.of_Z 1; F32.of_Z 0; flt half;
    F32.of_Z 0; F32.of_Z 0; F32.of_Z 1; flt half ].

(** [MATRIX_YUV_TO_RGB_(KR, KG, KB)] *)
Definition MATRIX_YUV_TO_RGB_ (KR KG KB : F64.t) : list F32.t :=
  let one_minus x := F64.sub (dbl 1) x in
  [ F32.of_Z 1; F32.of_Z 0; flt (F64.mul (dbl 2) (one_minus KR));
    F32.of_Z 1;
      flt (F64.mul (F64.mul (dbl (-2)) (one_minus KB)) (F64.div KB KG));
      flt (F64.mul (F64.mul (dbl (-2)) (one_minus KR)) (F64.div KR KG));
    F32.of_Z 1; flt (F64.mul (dbl 2) (one_minus KB)); F32.of_Z 0 ].

(** [MATRIX_YUV_TO_RGB(KR, KB)]: the green weight is [1 - KR - KB]. *)
Definition MATRIX_YUV_TO_RGB (KR KB : F64.t) : list F32.t :=
  MATRIX_YUV_TO_RGB_ KR (F64.sub (F64.sub (dbl 1) KR) KB) KB.

Definition MATRIX_BT601 : list F32.t :=
  MATRIX_YUV_TO_RGB (F64.lit 299 3) (F64.lit 114 3).
Definition MATRIX_BT709 : list F32.t :=
  MATRIX_YUV_TO_RGB (F64.lit 2126 4) (F64.lit 722 4).
Definition MATRIX_BT2020 : list F32.t :=
  MATRIX_YUV_TO_RGB (F64.lit 2627 4) (F64.lit 593 4).

(** The inner loop over k: a [double] accumulator, each product formed in
    [float] and promoted before the addition. *)
Definition conv_sum (space_matrix range_matrix : list F32.t) (x y : nat)
  : F64.t :=
  fold_left
    (fun sum k =>
       F64.add sum
         (float_to_double
            (F32.mul (get space_matrix (y * 3 + k))
                     (get range_matrix (k * 4 + x)))))
    (seq 0 3) F64.zero.

Definition init_conv_matrix (conv_matrix_out : list F32.t)
    (color_space : video_color_space_t) (color_range : video_color_range_t)
  : list F32.t :=
  let space_matrix :=
    match color_space with
    | COLOR_SPACE_BT601 => MATRIX_BT601
    | COLOR_SPACE_BT2020 => MATRIX_BT2020
    | _ => MATRIX_BT709
    end in
  let range_matrix :=
    if video_color_range_eqb color_range COLOR_RANGE_FULL
    then MATRIX_COLOR_RANGE_FULL
    else MATRIX_COLOR_RANGE_LIMITED in
  let out :=
    fold_left
      (fun out x =>
         fold_left
           (fun out y =>
              set out (x * 4 + y)
                  (double_to_float (conv_sum space_matrix range_matrix x y)))
           (seq 0 3) out)
      (seq 0 4) conv_matrix_out in
  let out := set out 3 (F32.of_Z 0) in
  let out := set out 7 (F32.of_Z 0) in
  let out := set out 11 (F32.of_Z 0) in
  set out 15 (F32.of_Z 1).

(** ** Pixel formats *)

(** [vlc_fourcc_t]: the chroma codes the sampler compares against, each a
    distinct 32-bit code, and every other code. *)
Inductive vlc_fourcc_t :=
| VLC_CODEC_P010 | VLC_CODEC_P016
| VLC_CODEC_YV12 | VLC_CODEC_YV9 | VLC_CODEC_NV21
| VLC_CODEC_UYVY | VLC_CODEC_YUYV | VLC_CODEC_VYUY | VLC_CODEC_YVYU
| VLC_CODEC_XYZ12
| VLC_CODEC_other (code : Z).

Definition fourcc_eqb (a b : vlc_fourcc_t) : bool :=
  match a, b with
  | VLC_CODEC_P010, VLC_CODEC_P010 | VLC_CODEC_P016, VLC_CODEC_P016
  | VLC_CODEC_YV12, VLC_CODEC_YV12 | VLC_CODEC_YV9, VLC_CODEC_YV9
  | VLC_CODEC_NV21, VLC_CODEC_NV21 | VLC_CODEC_UYVY, VLC_CODEC_UYVY
  | VLC_CODEC_YUYV, VLC_CODEC_YUYV | VLC_CODEC_VYUY, VLC_CODEC_VYUY
  | VLC_CODEC_YVYU, VLC_CODEC_YVYU | VLC_CODEC_XYZ12, VLC_CODEC_XYZ12 => true
  | VLC_CODEC_other x, VLC_CODEC_other y => x =? y
  | _, _ => false
  end.

(** The fields of [vlc_chroma_description_t] that sampler.c reads. *)
Record vlc_chroma_description_t := {
  plane_count : Z;
  pixel_size : Z;
  pixel_bits : Z
}.

(** [(float)((1 << 16) - 1) / ((1 << pixel_bits) - 1)]: the divisor is an
    [int] converted to [float], the quotient a [float] division. *)
Definition yuv_range_correction (desc : vlc_chroma_description_t) : F32.t :=
  F32.div (F32.of_Z (Z.shiftl 1 16 - 1))
          (F32.of_Z (Z.shiftl 1 (pixel_bits desc) - 1)).

(** [for (i = 0; i < 4*3; ++i) matrix[i] *= r] *)
Definition scale_first_12 (matrix : list F32.t) (r : F32.t) : list F32.t :=
  fold_left (fun m i => set m i (F32.mul (get m i) r)) (seq 0 (4 * 3)) matrix.

(** The three [memcpy] of the U/V swap, through the local [tmp[4]]. *)
Definition swap_uv_columns (matrix : list F32.t) : list F32.t :=
  let tmp := memcpy (zeros 4) 0 matrix 4 4 in
  let matrix := memcpy matrix 4 matrix 8 4 in
  memcpy matrix 8 tmp 0 4.

Definition swap_uv (chroma : vlc_fourcc_t) : bool :=
  fourcc_eqb chroma VLC_CODEC_YV12 || fourcc_eqb chroma VLC_CODEC_YV9
  || fourcc_eqb chroma VLC_CODEC_NV21.

(** The matrix part of [sampler_yuv_base_init], on [priv->conv_matrix]:
    first the matrix as it stands when [priv->yuv_color] is set, that is
    after [init_conv_matrix] and the bit-depth correction. *)
Definition yuv_scaled_matrix (matrix : list F32.t) (chroma : vlc_fourcc_t)
    (desc : vlc_chroma_description_t) (yuv_space : video_color_space_t)
  : list F32.t :=
  let range := COLOR_RANGE_LIMITED in
  let matrix := init_conv_matrix matrix yuv_space range in
  if pixel_size desc =? 2 then
    if negb (fourcc_eqb chroma VLC_CODEC_P010)
       && negb (fourcc_eqb chroma VLC_CODEC_P016)
    then scale_first_12 matrix (yuv_range_correction desc)
    else matrix
  else matrix.

(** ... then the U/V swap, which ends the function. *)
Definition yuv_conv_matrix (matrix : list F32.t) (chroma : vlc_fourcc_t)
    (desc : vlc_chroma_description_t) (yuv_space : video_color_space_t)
  : list F32.t :=
  let matrix := yuv_scaled_matrix matrix chroma desc yuv_space in
  if swap_uv chroma then swap_uv_columns matrix else matrix.

(** ** Orientation matrix *)

Inductive video_orientation_t :=
| ORIENT_NORMAL
| ORIENT_ROTATED_90 | ORIENT_ROTATED_180 | ORIENT_ROTATED_270
| ORIENT_HFLIPPED | ORIENT_VFLIPPED
| ORIENT_TRANSPOSED | ORIENT_ANTI_TRANSPOSED.

(** The [MATRIX_SET] macro: six stores of [int] constants into the
    column-major [float matrix[3*2]]. *)
Definition MATRIX_SET (matrix : list F32.t) (C0R0 C1R0 C3R0 C0R1 C1R1 C3R1 : Z)
  : list F32.t :=
  let matrix := set matrix (0*2 + 0) (F32.of_Z C0R0) in
  let matrix := set matrix (1*2 + 0) (F32.of_Z C1R0) in
  let matrix := set matrix (2*2 + 0) (F32.of_Z C3R0) in
  let matrix := set matrix (0*2 + 1) (F32.of_Z C0R1) in
  let matrix := set matrix (1*2 + 1) (F32.of_Z C1R1) in
  set matrix (2*2 + 1) (F32.of_Z C3R1).

Definition InitOrientationMatrix (matrix : list F32.t)
    (orientation : video_orientation_t) : list F32.t :=
  match orientation with
  | ORIENT_ROTATED_90 => MATRIX_SET matrix 0 (-1) 1 1 0 0
  | ORIENT_ROTATED_180 => MATRIX_SET matrix (-1) 0 1 0 (-1) 1
  | ORIENT_ROTATED_270 => MATRIX_SET matrix 0 1 0 (-1) 0 1
  | ORIENT_HFLIPPED => MATRIX_SET matrix (-1) 0 1 0 1 0
  | ORIENT_VFLIPPED => MATRIX_SET matrix 1 0 0 0 (-1) 1
  | ORIENT_TRANSPOSED => MATRIX_SET matrix 0 (-1) 1 (-1) 0 1
  | ORIENT_ANTI_TRANSPOSED => MATRIX_SET matrix 0 1 0 1 0 0
  | _ => matrix
  end.

(** ** The sampler and its collaborators *)

Record video_format_t := {
  i_chroma : vlc_fourcc_t;
  i_visible_width : Z;
  i_visible_height : Z;
  i_x_offset : Z;
  i_y_offset : Z;
  orientation : video_orientation_t;
  space : video_color_space_t;
  color_range : video_color_range_t
}.

Record picture_t := { format : video_format_t }.

(** Texture targets; [GL_NONE] is the zero that [calloc] leaves. *)
Inductive GLenum :=
| GL_NONE | GL_TEXTURE_2D | GL_TEXTURE_RECTANGLE | GL_TEXTURE_EXTERNAL_OES.

Record vlc_rational_t := { num : Z; den : Z }.

(** [interop->texs[j]]: the per-plane scale ratios. *)
Record vlc_gl_tex_cfg := { w : vlc_rational_t; h : vlc_rational_t }.

(** What the sampler reads of [struct vlc_gl_interop]; the two callbacks of
    [interop->ops] answer through [interop_reply] at each frame. *)
Record vlc_gl_interop := {
  interop_tex_count : Z;
  fmt_out : video_format_t;
  texs : list vlc_gl_tex_cfg;
  supports_npot : bool;
  handle_texs_gen : bool;
  interop_tex_target : GLenum;
  has_get_transform_matrix : bool
}.

Record interop_reply := {
  update_textures_ret : Z;
  update_textures_texs : list Z;
  get_transform_matrix : option (list F32.t)
}.

Record source_region := {
  last_x_offset : Z;
  last_y_offset : Z;
  last_visible_width : Z;
  last_visible_height : Z
}.

(** [struct vlc_gl_sampler_priv], with the public [struct vlc_gl_sampler]
    fields it embeds ([fmt], [tex_count], [pic_to_tex_matrix], which is
    either NULL or the address of [mtx_all]). *)
Record vlc_gl_sampler_priv := {
  fmt : video_format_t;
  tex_count : Z;
  pic_to_tex_matrix : bool;
  yuv_color : bool;
  conv_matrix : list F32.t;
  tex_widths : list Z;
  tex_heights : list Z;
  visible_widths : list Z;
  visible_heights : list Z;
  textures : list Z;
  tex_target : GLenum;
  last_source : source_region;
  interop : option vlc_gl_interop;
  expose_planes : bool;
  plane : Z;
  mtx_orientation : list F32.t;
  mtx_coords_map : list F32.t;
  mtx_transform : list F32.t;
  mtx_transform_defined : bool;
  mtx_all : list F32.t;
  mtx_all_defined : bool;
  mtx_all_has_changed : bool
}.

Definition PICTURE_PLANE_MAX : nat := 5.

(** Modelled from the spec: [MATRIX3x2_IDENTITY] of gl_util.h is not among
    the sources; the spec calls it the identity, stored column-major. *)
Definition MATRIX3x2_IDENTITY : list F32.t :=
  [ F32.of_Z 1; F32.of_Z 0; F32.of_Z 0; F32.of_Z 1; F32.of_Z 0; F32.of_Z 0 ].

(** Modelled from the spec: [vlc_align_pot] is not among the sources; the
    spec has texture sizes rounded up to a power of two. *)
Definition vlc_align_pot (x : Z) : Z := 2 ^ Z.log2_up x.

(** Wrap-around of [unsigned] and the conversion to [GLsizei] (int). *)
Definition u32 (z : Z) : Z := z mod 2 ^ 32.
Definition to_int (z : Z) : Z := (z + 2 ^ 31) mod 2 ^ 32 - 2 ^ 31.

(** ** Construction *)

(** Return codes of the construction path; [assertion_failed] stands for an
    [assert] that does not hold. *)
Inductive init_status :=
| VLC_SUCCESS | VLC_EGENERIC | VLC_ENOMEM | assertion_failed.

(** What construction obtains from outside sampler.c: allocation outcomes,
    the GL extension string, the chroma tables of vlc_fourcc.h and the
    interop's texture generation. *)
Record environment := {
  calloc_ok : bool;
  memstream_ok : bool;
  strdup_ok : bool;
  has_GL_ARB_texture_rg : bool;
  vlc_fourcc_IsYUV : vlc_fourcc_t -> bool;
  vlc_fourcc_GetChromaDescription :
    vlc_fourcc_t -> option vlc_chroma_description_t;
  vlc_gl_interop_GenerateTextures : list Z -> list Z -> option (list Z)
}.

(** The block that [calloc] returns for [priv]: every byte zero. *)
Definition calloc_priv : vlc_gl_sampler_priv := {|
  fmt := {| i_chroma := VLC_CODEC_other 0; i_visible_width := 0;
            i_visible_height := 0; i_x_offset := 0; i_y_offset := 0;
            orientation := ORIENT_NORMAL; space := COLOR_SPACE_UNDEF;
            color_range := COLOR_RANGE_UNDEF |};
  tex_count := 0;
  pic_to_tex_matrix := false;
  yuv_color := false;
  conv_matrix := zeros (4 * 4);
  tex_widths := repeat 0 PICTURE_PLANE_MAX;
  tex_heights := repeat 0 PICTURE_PLANE_MAX;
  visible_widths := repeat 0 PICTURE_PLANE_MAX;
  visible_heights := repeat 0 PICTURE_PLANE_MAX;
  textures := repeat 0 PICTURE_PLANE_MAX;
  tex_target := GL_NONE;
  last_source := {| last_x_offset := 0; last_y_offset := 0;
                    last_visible_width := 0; last_visible_height := 0 |};
  interop := None;
  expose_planes := false;
  plane := 0;
  mtx_orientation := zeros (3 * 2);
  mtx_coords_map := zeros (3 * 2);
  mtx_transform := zeros (3 * 2);
  mtx_transform_defined := false;
  mtx_all := zeros (3 * 2);
  mtx_all_defined := false;
  mtx_all_has_changed := false
|}.

Definition InitShaderExtensions (E : environment) (target : GLenum)
  : init_status :=
  match target with
  | GL_TEXTURE_EXTERNAL_OES => if strdup_ok E then VLC_SUCCESS else VLC_EGENERIC
  | _ => VLC_SUCCESS
  end.

(** [GetNames] reaches [vlc_assert_unreachable] on any other target. *)
Definition GetNames (target : GLenum) : option (string * string) :=
  match target with
  | GL_TEXTURE_EXTERNAL_OES => Some ("samplerExternalOES", "texture2D")%string
  | GL_TEXTURE_2D => Some ("sampler2D", "texture2D")%string
  | GL_TEXTURE_RECTANGLE => Some ("sampler2DRect", "texture2DRect")%string
  | GL_NONE => None
  end.

(** Status of the three shader generators; the text they emit is not
    modelled, only whether its buffers could be obtained. *)
Definition sampler_planes_init (E : environment) (target : GLenum)
  : init_status :=
  if negb (memstream_ok E) then VLC_EGENERIC
  else match GetNames target with
       | None => assertion_failed
       | Some _ =>
           match InitShaderExtensions E target with
           | VLC_SUCCESS => VLC_SUCCESS
           | _ => VLC_EGENERIC
           end
       end.

Definition xyz12_shader_init (E : environment) : init_status :=
  if strdup_ok E then VLC_SUCCESS else VLC_ENOMEM.

Definition opengl_init_swizzle (E : environment) (chroma : vlc_fourcc_t)
    (desc : vlc_chroma_description_t) : init_status * list (option string) :=
  let none := repeat (@None string) PICTURE_PLANE_MAX in
  let put l := l ++ repeat None (PICTURE_PLANE_MAX - List.length l) in
  if plane_count desc =? 3 then
    (VLC_SUCCESS, put [Some "r"; Some "r"; Some "r"]%string)
  else if plane_count desc =? 2 then
    if has_GL_ARB_texture_rg E
    then (VLC_SUCCESS, put [Some "r"; Some "rg"]%string)
    else (VLC_SUCCESS, put [Some "x"; Some "xa"]%string)
  else if plane_count desc =? 1 then
    match chroma with
    | VLC_CODEC_UYVY => (VLC_SUCCESS, put [Some "grb"]%string)
    | VLC_CODEC_YUYV => (VLC_SUCCESS, put [Some "rga"]%string)
    | VLC_CODEC_VYUY => (VLC_SUCCESS, put [Some "gbr"]%string)
    | VLC_CODEC_YVYU => (VLC_SUCCESS, put [Some "rag"]%string)
    | _ => (assertion_failed, none)
    end
  else (VLC_SUCCESS, none).

(** The [color_count] bookkeeping of the YUV shader body: [None] when an
    [assert] on the swizzles fails. *)
Fixpoint yuv_color_count (swizzle_per_tex : list (option string))
    (i n : nat) (color_count : Z) : option Z :=
  match n with
  | O => Some color_count
  | S n' =>
      match nth i swizzle_per_tex None with
      | None => None
      | Some swizzle =>
          let color_count := color_count + Z.of_nat (String.length swizzle) in
          if color_count <? Z.of_nat PICTURE_PLANE_MAX
          then yuv_color_count swizzle_per_tex (S i) n' color_count
          else None
      end
  end.

Definition is_undef (s : video_color_space_t) : bool :=
  match s with COLOR_SPACE_UNDEF => true | _ => false end.

Definition opengl_fragment_shader_init (E : environment)
    (priv : vlc_gl_sampler_priv) (target : GLenum) (f : video_format_t)
    (expose : bool) : init_status * vlc_gl_sampler_priv :=
  let chroma := i_chroma f in
  let yuv_space := space f in
  let is_yuv := vlc_fourcc_IsYUV E chroma in
  let base tc ori yuv conv := {|
    fmt := fmt priv; tex_count := tc;
    pic_to_tex_matrix := pic_to_tex_matrix priv;
    yuv_color := yuv; conv_matrix := conv;
    tex_widths := tex_widths priv; tex_heights := tex_heights priv;
    visible_widths := visible_widths priv;
    visible_heights := visible_heights priv;
    textures := textures priv; tex_target := target;
    last_source := last_source priv; interop := interop priv;
    expose_planes := expose; plane := 0;
    mtx_orientation := ori; mtx_coords_map := mtx_coords_map priv;
    mtx_transform := mtx_transform priv;
    mtx_transform_defined := mtx_transform_defined priv;
    mtx_all := mtx_all priv; mtx_all_defined := mtx_all_defined priv;
    mtx_all_has_changed := mtx_all_has_changed priv |} in
  match vlc_fourcc_GetChromaDescription E chroma with
  | None =>
      (VLC_EGENERIC,
       base (tex_count priv) (mtx_orientation priv) (yuv_color priv)
            (conv_matrix priv))
  | Some desc =>
      let tc := plane_count desc in
      let ori := InitOrientationMatrix (mtx_orientation priv) (orientation f) in
      let plain := base tc ori (yuv_color priv) (conv_matrix priv) in
      if expose then (sampler_planes_init E target, plain)
      else if fourcc_eqb chroma VLC_CODEC_XYZ12 then (xyz12_shader_init E, plain)
      else
        let priv' :=
          if is_yuv
          then base tc ori true
                    (yuv_conv_matrix (conv_matrix priv) chroma desc yuv_space)
          else plain in
        let swz :=
          if is_yuv then opengl_init_swizzle E chroma desc
          else (VLC_SUCCESS, repeat None PICTURE_PLANE_MAX) in
        match fst swz with
        | VLC_SUCCESS =>
            match GetNames target with
            | None => (assertion_failed, priv')
            | Some _ =>
                if negb (memstream_ok E) then (VLC_EGENERIC, priv')
                else
                  let color_count :=
                    if is_yuv
                    then yuv_color_count (snd swz) 0 (Z.to_nat tc) 0
                    else Some 1 in
                  match color_count with
                  | None => (assertion_failed, priv')
                  | Some cc =>
                      if negb (is_undef yuv_space || (cc =? 3))
                      then (assertion_failed, priv')
                      else
                        match InitShaderExtensions E target with
                        | VLC_SUCCESS => (VLC_SUCCESS, priv')
                        | _ => (VLC_EGENERIC, priv')
                        end
                  end
            end
        | st => (st, priv')
        end
  end.

(** [memcpy(dst, src, n * sizeof(src[0]))] on integer arrays. *)
Definition memcpy_int (dst src : list Z) (n : nat) : list Z :=
  fold_left (fun d i => set d i (nth i src 0)) (seq 0 n) dst.

(** The texture-size loop of [CreateSampler]: one plane, then all of the
    interop's planes over the four size arrays. *)
Definition plane_size (visible : Z) (r : vlc_rational_t) : Z :=
  to_int (u32 (visible * num r) / den r).

Definition texture_sizes (i : vlc_gl_interop) (vw vh tw th : list Z)
  : list Z * list Z * list Z * list Z :=
  fold_left
    (fun '(vw, vh, tw, th) j =>
       let cfg := nth j (texs i)
                      {| w := {| num := 0; den := 0 |};
                         h := {| num := 0; den := 0 |} |} in
       let pw := plane_size (i_visible_width (fmt_out i)) (w cfg) in
       let ph := plane_size (i_visible_height (fmt_out i)) (h cfg) in
       if supports_npot i
       then (set vw j pw, set vh j ph, set tw j pw, set th j ph)
       else (set vw j pw, set vh j ph,
             set tw j (vlc_align_pot pw), set th j (vlc_align_pot ph)))
    (seq 0 (Z.to_nat (interop_tex_count i))) (vw, vh, tw, th).

Definition CreateSampler (E : environment) (io : option vlc_gl_interop)
    (f : video_format_t) (target : GLenum) (expose : bool)
  : option vlc_gl_sampler_priv :=
  if negb (calloc_ok E) then None
  else
    let priv := {|
      fmt := f; tex_count := tex_count calloc_priv;
      pic_to_tex_matrix := false;
      yuv_color := yuv_color calloc_priv;
      conv_matrix := conv_matrix calloc_priv;
      tex_widths := tex_widths calloc_priv;
      tex_heights := tex_heights calloc_priv;
      visible_widths := visible_widths calloc_priv;
      visible_heights := visible_heights calloc_priv;
      textures := textures calloc_priv; tex_target := tex_target calloc_priv;
      last_source := last_source calloc_priv; interop := io;
      expose_planes := expose_planes calloc_priv; plane := plane calloc_priv;
      mtx_orientation := mtx_orientation calloc_priv;
      mtx_coords_map := mtx_coords_map calloc_priv;
      mtx_transform := mtx_transform calloc_priv;
      mtx_transform_defined := false;
      mtx_all := mtx_all calloc_priv; mtx_all_defined := false;
      mtx_all_has_changed := false |} in
    match opengl_fragment_shader_init E priv target f expose with
    | (VLC_SUCCESS, priv) =>
        let count_ok :=
          match io with
          | Some i => interop_tex_count i =? tex_count priv
          | None => true
          end in
        if negb count_ok then None
        else
          let coords := memcpy (mtx_coords_map priv) 0 MATRIX3x2_IDENTITY 0 6 in
          let finish vw vh tw th tx := {|
            fmt := fmt priv; tex_count := tex_count priv;
            pic_to_tex_matrix := pic_to_tex_matrix priv;
            yuv_color := yuv_color priv; conv_matrix := conv_matrix priv;
            tex_widths := tw; tex_heights := th;
            visible_widths := vw; visible_heights := vh;
            textures := tx; tex_target := tex_target priv;
            last_source := last_source priv; interop := interop priv;
            expose_planes := expose_planes priv; plane := plane priv;
            mtx_orientation := mtx_orientation priv;
            mtx_coords_map := coords;
            mtx_transform := mtx_transform priv;
            mtx_transform_defined := mtx_transform_defined priv;
            mtx_all := mtx_all priv; mtx_all_defined := mtx_all_defined priv;
            mtx_all_has_changed := mtx_all_has_changed priv |} in
          match io with
          | None =>
              Some (finish (visible_widths priv) (visible_heights priv)
                           (tex_widths priv) (tex_heights priv)
                           (textures priv))
          | Some i =>
              let sizes :=
                texture_sizes i (visible_widths priv) (visible_heights priv)
                              (tex_widths priv) (tex_heights priv) in
              let '(vw, vh, tw, th) := sizes in
              if handle_texs_gen i then Some (finish vw vh tw th (textures priv))
              else
                match vlc_gl_interop_GenerateTextures E tw th with
                | Some tx => Some (finish vw vh tw th tx)
                | None => None
                end
          end
    | _ => None
    end.

Definition vlc_gl_sampler_NewFromInterop (E : environment)
    (i : vlc_gl_interop) (expose : bool) : option vlc_gl_sampler_priv :=
  CreateSampler E (Some i) (fmt_out i) (interop_tex_target i) expose.

Definition vlc_gl_sampler_NewFromTexture2D (E : environment)
    (f : video_format_t) (expose : bool) : option vlc_gl_sampler_priv :=
  CreateSampler E None f GL_TEXTURE_2D expose.

(** ** Per-frame update *)

(** [MatrixMultiply(out, a, b)]; [out] never aliases [a] or [b] at the two
    call sites. *)
Definition MatrixMultiply (out a b : list F32.t) : list F32.t :=
  fold_left
    (fun out i =>
       fold_left
         (fun out j =>
            set out (i*2 + j)
                (F32.add
                   (F32.add (F32.mul (get a (0*2 + j)) (get b (i*2 + 0)))
                            (F32.mul (get a (1*2 + j)) (get b (i*2 + 1))))
                   (get a (2*2 + j))))
         (seq 0 2) out)
    (seq 0 3) out.

(** [UpdateMatrixAll]: returns the new content of [priv->mtx_all]. *)
Definition UpdateMatrixAll (priv : vlc_gl_sampler_priv) : list F32.t :=
  if mtx_transform_defined priv then
    let tmp := MatrixMultiply (zeros (3 * 2)) (mtx_coords_map priv)
                              (mtx_orientation priv) in
    MatrixMultiply (mtx_all priv) (mtx_transform priv) tmp
  else
    MatrixMultiply (mtx_all priv) (mtx_coords_map priv) (mtx_orientation priv).

Definition region_of (source : video_format_t) : source_region :=
  {| last_x_offset := i_x_offset source;
     last_y_offset := i_y_offset source;
     last_visible_width := i_visible_width source;
     last_visible_height := i_visible_height source |}.

(** The test of [vlc_gl_sampler_UpdatePicture] on the four source fields. *)
Definition region_differs (source : video_format_t) (l : source_region) : bool :=
  negb (i_x_offset source =? last_x_offset l)
  || negb (i_y_offset source =? last_y_offset l)
  || negb (i_visible_width source =? last_visible_width l)
  || negb (i_visible_height source =? last_visible_height l).

(** The coordinate-map matrix for a source region, after the [memset]. *)
Definition coords_map_of (priv : vlc_gl_sampler_priv) (source : video_format_t)
  : list F32.t :=
  let matrix := zeros (3 * 2) in
  let scale_w := F32.of_Z (nth 0 (tex_widths priv) 0) in
  let scale_h := F32.of_Z (nth 0 (tex_heights priv) 0) in
  let left := F32.div (F32.of_Z (u32 (i_x_offset source + 0))) scale_w in
  let top := F32.div (F32.of_Z (u32 (i_y_offset source + 0))) scale_h in
  let right :=
    F32.div (F32.of_Z (u32 (i_x_offset source + i_visible_width source)))
            scale_w in
  let bottom :=
    F32.div (F32.of_Z (u32 (i_y_offset source + i_visible_height source)))
            scale_h in
  let matrix := set matrix (0*2 + 0) (F32.sub right left) in
  let matrix := set matrix (1*2 + 1) (F32.sub bottom top) in
  let matrix := set matrix (2*2 + 0) left in
  set matrix (2*2 + 1) top.

(** [GetTransformMatrix]: the callback is optional. *)
Definition GetTransformMatrix (i : vlc_gl_interop) (r : interop_reply)
  : option (list F32.t) :=
  if has_get_transform_matrix i then get_transform_matrix r else None.

(** [vlc_gl_sampler_UpdatePicture]; [None] when [assert(interop)] fails. *)
Definition vlc_gl_sampler_UpdatePicture (priv : vlc_gl_sampler_priv)
    (picture : picture_t) (r : interop_reply)
  : option (Z * vlc_gl_sampler_priv) :=
  match interop priv with
  | None => None
  | Some i =>
      let source := format picture in
      let remap :=
        negb (mtx_all_defined priv) || region_differs source (last_source priv) in
      let coords :=
        if remap then coords_map_of priv source else mtx_coords_map priv in
      let mtx_changed := remap in
      let last := if remap then region_of source else last_source priv in
      let ret := update_textures_ret r in
      let tm := GetTransformMatrix i r in
      let '(transform, transform_defined, mtx_changed) :=
        match tm with
        | Some m => (memcpy (mtx_transform priv) 0 m 0 6, true, true)
        | None =>
            if mtx_transform_defined priv
            then (mtx_transform priv, false, true)
            else (mtx_transform priv, mtx_transform_defined priv, mtx_changed)
        end in
      let mid all ptr defined changed := {|
        fmt := fmt priv; tex_count := tex_count priv;
        pic_to_tex_matrix := ptr;
        yuv_color := yuv_color priv; conv_matrix := conv_matrix priv;
        tex_widths := tex_widths priv; tex_heights := tex_heights priv;
        visible_widths := visible_widths priv;
        visible_heights := visible_heights priv;
        textures := update_textures_texs r; tex_target := tex_target priv;
        last_source := last; interop := interop priv;
        expose_planes := expose_planes priv; plane := plane priv;
        mtx_orientation := mtx_orientation priv;
        mtx_coords_map := coords;
        mtx_transform := transform;
        mtx_transform_defined := transform_defined;
        mtx_all := all; mtx_all_defined := defined;
        mtx_all_has_changed := changed |} in
      if negb (mtx_all_defined priv) || mtx_changed then
        let inputs := mid (mtx_all priv) (pic_to_tex_matrix priv)
                          (mtx_all_defined priv) (mtx_all_has_changed priv) in
        Some (ret, mid (UpdateMatrixAll inputs) true true true)
      else
        Some (ret, mid (mtx_all priv) (pic_to_tex_matrix priv)
                       (mtx_all_defined priv) false)
  end.

(** [vlc_gl_sampler_UpdateTextures]; [None] when [assert(!priv->interop)]
    fails, otherwise [VLC_SUCCESS] and the new state. *)
Definition vlc_gl_sampler_UpdateTextures (priv : vlc_gl_sampler_priv)
    (texs widths heights : list Z) : option (init_status * vlc_gl_sampler_priv) :=
  match interop priv with
  | Some _ => None
  | None =>
      let first := negb (mtx_all_defined priv) in
      let n := Z.to_nat (tex_count priv) in
      Some (VLC_SUCCESS, {|
        fmt := fmt priv; tex_count := tex_count priv;
        pic_to_tex_matrix :=
          if first then true else pic_to_tex_matrix priv;
        yuv_color := yuv_color priv; conv_matrix := conv_matrix priv;
        tex_widths := memcpy_int (tex_widths priv) widths n;
        tex_heights := memcpy_int (tex_heights priv) heights n;
        visible_widths := visible_widths priv;
        visible_heights := visible_heights priv;
        textures := memcpy_int (textures priv) texs n;
        tex_target := tex_target priv;
        last_source := last_source priv; interop := interop priv;
        expose_planes := expose_planes priv; plane := plane priv;
        mtx_orientation := mtx_orientation priv;
        mtx_coords_map := mtx_coords_map priv;
        mtx_transform := mtx_transform priv;
        mtx_transform_defined := mtx_transform_defined priv;
        mtx_all :=
          if first then memcpy (mtx_all priv) 0 MATRIX3x2_IDENTITY 0 6
          else mtx_all priv;
        mtx_all_defined := if first then true else mtx_all_defined priv;
        mtx_all_has_changed := if first then true else false |})
  end.

(** [vlc_gl_sampler_PicToTexCoords]: the loop over the coordinate pairs,
    writing into [tex_coords_out]. *)
Definition vlc_gl_sampler_PicToTexCoords (priv : vlc_gl_sampler_priv)
    (coords_count : nat) (pic_coords tex_coords_out : list F32.t)
  : list F32.t :=
  let mtx := mtx_all priv in
  let MTX (col row : nat) := get mtx (col*2 + row) in
  fold_left
    (fun out i =>
       let x := get pic_coords (2*i + 0) in
       let y := get pic_coords (2*i + 1) in
       let out :=
         set out (2*i + 0)
             (F32.add (F32.add (F32.mul (MTX 0 0)%nat x) (F32.mul (MTX 1 0)%nat y))
                      (MTX 2 0)%nat) in
       set out (2*i + 1)
           (F32.add (F32.add (F32.mul (MTX 0 1)%nat x) (F32.mul (MTX 1 1)%nat y))
                    (MTX 2 1)%nat))
    (seq 0 coords_count) tex_coords_out.

Definition vlc_gl_sampler_MustRecomputeCoords (priv : vlc_gl_sampler_priv)
  : bool :=
  mtx_all_has_changed priv.

(** ** The remaining entry points *)

(** [vlc_gl_sampler_PicToTexCoords] called with [pic_coords ==
    tex_coords_out]: the coordinates are read from the buffer that is
    being written. *)
Definition PicToTexCoords_in_place (priv : vlc_gl_sampler_priv)
    (coords_count : nat) (coords : list F32.t) : list F32.t :=
  let mtx := mtx_all priv in
  let MTX (col row : nat) := get mtx (col*2 + row) in
  fold_left
    (fun buf i =>
       let x := get buf (2*i + 0) in
       let y := get buf (2*i + 1) in
       let buf :=
         set buf (2*i + 0)
             (F32.add (F32.add (F32.mul (MTX 0 0)%nat x) (F32.mul (MTX 1 0)%nat y))
                      (MTX 2 0)%nat) in
       set buf (2*i + 1)
           (F32.add (F32.add (F32.mul (MTX 0 1)%nat x) (F32.mul (MTX 1 1)%nat y))
                    (MTX 2 1)%nat))
    (seq 0 coords_count) coords.

(** [sqrt(x * x + y * y)] stored in a [float]: the sum of squares is
    formed in [float], the root taken in [double]. *)
Definition column_norm (x y : F32.t) : F32.t :=
  double_to_float
    (F64.sqrt (float_to_double (F32.add (F32.mul x x) (F32.mul y y)))).

(** [vlc_gl_sampler_ComputeDirectionMatrix], writing [direction[2*2]];
    [None] when [assert(priv->mtx_all_defined)] fails. *)
Definition vlc_gl_sampler_ComputeDirectionMatrix (priv : vlc_gl_sampler_priv)
    (direction : list F32.t) : option (list F32.t) :=
  if negb (mtx_all_defined priv) then None
  else
    let ux := get (mtx_all priv) 0 in
    let uy := get (mtx_all priv) 1 in
    let vx := get (mtx_all priv) 2 in
    let vy := get (mtx_all priv) 3 in
    let unorm := column_norm ux uy in
    let vnorm := column_norm vx vy in
    let direction := set direction 0 (F32.div ux unorm) in
    let direction := set direction 1 (F32.div uy unorm) in
    let direction := set direction 2 (F32.div vx vnorm) in
    Some (set direction 3 (F32.div vy vnorm)).

(** [vlc_gl_sampler_Delete]: the arguments of the one [DeleteTextures]
    call it may make, a count and the texture array, or [None] when it
    makes none. *)
Definition vlc_gl_sampler_Delete (priv : vlc_gl_sampler_priv)
  : option (Z * list Z) :=
  match interop priv with
  | Some i =>
      if negb (handle_texs_gen i)
      then Some (interop_tex_count i, textures priv)
      else None
  | None => None
  end.

(** * Statements *)

(** ** Reading the conversion matrix *)

(** The column that an entry of the swapped matrix is copied from. *)
Definition swapped_col (col : nat) : nat :=
  match col with 1 => 2 | 2 => 1 | c => c end%nat.

(** [ConvMatrix * pixel] of the generated shader, on the exact values of
    the stored floats: row [row] of the column-major 4x4 matrix. *)
Definition conv_apply (m : list F32.t) (pixel : list Q) (row : nat) : Q :=
  fold_left
    (fun acc col => acc + SF2Q (get m (col * 4 + row)) * nth col pixel 0)%Q
    (seq 0 4) 0%Q.

Definition neutral_limited : list Q := [16 # 255; 128 # 255; 128 # 255; 1]%Q.
Definition neutral_full : list Q := [0; 128 # 255; 128 # 255; 1]%Q.

(** The tolerance: one unit in the last place of a float near 1. *)
Definition FLT_EPSILON : Q := 1 # 8388608.

Definition near_black (m : list F32.t) (pixel : list Q) : Prop :=
  (Qabs (conv_apply m pixel 0) <= FLT_EPSILON
   /\ Qabs (conv_apply m pixel 1) <= FLT_EPSILON
   /\ Qabs (conv_apply m pixel 2) <= FLT_EPSILON)%Q.

Definition near_blackb (m : list F32.t) (pixel : list Q) : bool :=
  Qle_bool (Qabs (conv_apply m pixel 0)) FLT_EPSILON
  && Qle_bool (Qabs (conv_apply m pixel 1)) FLT_EPSILON
  && Qle_bool (Qabs (conv_apply m pixel 2)) FLT_EPSILON.

(** ** Bit-depth correction and U/V swap *)

(** Rows 0..2 of the column-major matrix multiplied by r, bias entries
    included. *)
Definition first_three_rows_scaled (m0 m : list F32.t) (r : F32.t) : Prop :=
  forall row col, (row < 3)%nat -> (col < 4)%nat ->
    get m (col * 4 + row) = F32.mul (get m0 (col * 4 + row)) r.

(** What the loop does instead: columns 0..2 multiplied by r, that is the
    first twelve floats in memory, and column 3 (the bias) left alone. *)
Definition first_three_columns_scaled (m0 m : list F32.t) (r : F32.t) : Prop :=
  (forall col row, (col < 3)%nat -> (row < 4)%nat ->
     get m (col * 4 + row) = F32.mul (get m0 (col * 4 + row)) r)
  /\ (forall row, (row < 4)%nat -> get m (3 * 4 + row) = get m0 (3 * 4 + row)).

Definition VLC_CODEC_I420_10L : vlc_fourcc_t := VLC_CODEC_other 1279340617.

Definition desc_I420_10L : vlc_chroma_description_t :=
  {| plane_count := 3; pixel_size := 2; pixel_bits := 10 |}.

Definition bit_depth_correction_spec (m : list F32.t) (chroma : vlc_fourcc_t)
    (desc : vlc_chroma_description_t) (cs : video_color_space_t) : Prop :=
  let m0 := init_conv_matrix m cs COLOR_RANGE_LIMITED in
  let r := yuv_range_correction desc in
  let pre := yuv_scaled_matrix m chroma desc cs in
  (chroma <> VLC_CODEC_P010 /\ chroma <> VLC_CODEC_P016 ->
     first_three_columns_scaled m0 pre r)
  /\ (chroma = VLC_CODEC_P010 \/ chroma = VLC_CODEC_P016 -> pre = m0)
  /\ yuv_conv_matrix m chroma desc cs
     = (if swap_uv chroma then swap_uv_columns pre else pre)
  /\ (pixel_bits desc = 10 ->
        r = F32.div (F32.of_Z 65535) (F32.of_Z 1023)
        /\ (Qabs (SF2Q r - (65535 # 1023)) <= 1 # 262144)%Q).

Definition uv_swap_spec (m : list F32.t) (chroma : vlc_fourcc_t)
    (desc : vlc_chroma_description_t) (cs : video_color_space_t) : Prop :=
  let pre := yuv_scaled_matrix m chroma desc cs in
  let out := yuv_conv_matrix m chroma desc cs in
  (swap_uv chroma = true
   <-> chroma = VLC_CODEC_YV12 \/ chroma = VLC_CODEC_YV9
       \/ chroma = VLC_CODEC_NV21)
  /\ (swap_uv chroma = true ->
        forall col row, (col < 4)%nat -> (row < 4)%nat ->
          get out (col * 4 + row) = get pre (swapped_col col * 4 + row))
  /\ (swap_uv chroma = false -> out = pre)
  /\ (forall x, List.length x = 16%nat ->
        swap_uv_columns (swap_uv_columns x) = x).

(** ** A sample configuration: an 8-bit planar 4:2:0 BT.709 source of
    1920x1080 in the normal orientation, on a context with
    non-power-of-two textures. *)

Definition VLC_CODEC_I420 : vlc_fourcc_t := VLC_CODEC_other 808596553.

Definition sample_env : environment := {|
  calloc_ok := true; memstream_ok := true; strdup_ok := true;
  has_GL_ARB_texture_rg := true;
  vlc_fourcc_IsYUV := fun _ => true;
  vlc_fourcc_GetChromaDescription :=
    fun _ => Some {| plane_count := 3; pixel_size := 1; pixel_bits := 8 |};
  vlc_gl_interop_GenerateTextures := fun _ _ => Some [1; 2; 3; 0; 0]
|}.

Definition sample_fmt : video_format_t := {|
  i_chroma := VLC_CODEC_I420;
  i_visible_width := 1920; i_visible_height := 1080;
  i_x_offset := 0; i_y_offset := 0;
  orientation := ORIENT_NORMAL;
  space := COLOR_SPACE_BT709; color_range := COLOR_RANGE_LIMITED
|}.

Definition sample_texs : list vlc_gl_tex_cfg :=
  let full := {| num := 1; den := 1 |} in
  let half := {| num := 1; den := 2 |} in
  [ {| w := full; h := full |}; {| w := half; h := half |};
    {| w := half; h := half |} ].

Definition sample_interop : vlc_gl_interop := {|
  interop_tex_count := 3; fmt_out := sample_fmt; texs := sample_texs;
  supports_npot := true; handle_texs_gen := false;
  interop_tex_target := GL_TEXTURE_2D; has_get_transform_matrix := false
|}.

Definition sample_picture : picture_t := {| format := sample_fmt |}.

Definition sample_reply : interop_reply := {|
  update_textures_ret := 0; update_textures_texs := [1; 2; 3; 0; 0];
  get_transform_matrix := None
|}.

Definition sample_sampler : vlc_gl_sampler_priv :=
  match vlc_gl_sampler_NewFromInterop sample_env sample_interop false with
  | Some p => p
  | None => calloc_priv
  end.

(** The state a frame leaves behind (the state itself when the call aborts). *)
Definition after_picture (priv : vlc_gl_sampler_priv) (picture : picture_t)
    (r : interop_reply) : vlc_gl_sampler_priv :=
  match vlc_gl_sampler_UpdatePicture priv picture r with
  | Some (_, s) => s
  | None => priv
  end.

(** ** The orientation table and the affine product *)

(** The table, row by row: coefficients of X, Y and the constant for x',
    then for y'. *)
Definition orientation_rows (o : video_orientation_t)
  : (Z * Z * Z) * (Z * Z * Z) :=
  match o with
  | ORIENT_NORMAL => ((1, 0, 0), (0, 1, 0))
  | ORIENT_ROTATED_90 => ((0, -1, 1), (1, 0, 0))
  | ORIENT_ROTATED_180 => ((-1, 0, 1), (0, -1, 1))
  | ORIENT_ROTATED_270 => ((0, 1, 0), (-1, 0, 1))
  | ORIENT_HFLIPPED => ((-1, 0, 1), (0, 1, 0))
  | ORIENT_VFLIPPED => ((1, 0, 0), (0, -1, 1))
  | ORIENT_TRANSPOSED => ((0, -1, 1), (-1, 0, 1))
  | ORIENT_ANTI_TRANSPOSED => ((0, 1, 0), (1, 0, 0))
  end.

(** Two rows laid out column-major. *)
Definition matrix_of_rows (rows : (Z * Z * Z) * (Z * Z * Z)) : list F32.t :=
  let '((a, b, c), (d, e, f)) := rows in
  map F32.of_Z [a; d; b; e; c; f].

(** The affine composition a o b as the specification words it: for each
    column and row, the sum over k in {0,1}, and the translation of a only
    in the translation column. *)
Definition affine_compose (a b : list F32.t) : list F32.t :=
  flat_map
    (fun col =>
       map (fun row =>
              let linear :=
                F32.add (F32.mul (get a (0*2 + row)) (get b (col*2 + 0)))
                        (F32.mul (get a (1*2 + row)) (get b (col*2 + 1))) in
              if (col =? 2)%nat then F32.add linear (get a (2*2 + row))
              else linear)
           (seq 0 2))
    (seq 0 3).

(** The translation by (1, 0). *)
Definition shift_right : list F32.t := map F32.of_Z [1; 0; 0; 1; 1; 0].

Definition corners : list F32.t := map F32.of_Z [0; 0; 1; 1].

(** The same sampler with another orientation matrix stored. *)
Definition with_mtx_orientation (p : vlc_gl_sampler_priv) (m : list F32.t)
  : vlc_gl_sampler_priv := {|
  fmt := fmt p; tex_count := tex_count p;
  pic_to_tex_matrix := pic_to_tex_matrix p;
  yuv_color := yuv_color p; conv_matrix := conv_matrix p;
  tex_widths := tex_widths p; tex_heights := tex_heights p;
  visible_widths := visible_widths p; visible_heights := visible_heights p;
  textures := textures p; tex_target := tex_target p;
  last_source := last_source p; interop := interop p;
  expose_planes := expose_planes p; plane := plane p;
  mtx_orientation := m; mtx_coords_map := mtx_coords_map p;
  mtx_transform := mtx_transform p;
  mtx_transform_defined := mtx_transform_defined p;
  mtx_all := mtx_all p; mtx_all_defined := mtx_all_defined p;
  mtx_all_has_changed := mtx_all_has_changed p |}.

(** ** The range tag of a format *)

Definition with_color_range (f : video_format_t) (r : video_color_range_t)
  : video_format_t :=
  {| i_chroma := i_chroma f; i_visible_width := i_visible_width f;
     i_visible_height := i_visible_height f; i_x_offset := i_x_offset f;
     i_y_offset := i_y_offset f; orientation := orientation f;
     space := space f; color_range := r |}.

(** ** Runs of texture-driven updates *)

(** A run of [vlc_gl_sampler_UpdateTextures] calls, each with its texture
    names, widths and heights. *)
Fixpoint UpdateTextures_run (priv : vlc_gl_sampler_priv)
    (calls : list (list Z * list Z * list Z)) : option vlc_gl_sampler_priv :=
  match calls with
  | [] => Some priv
  | (texs, widths, heights) :: rest =>
      match vlc_gl_sampler_UpdateTextures priv texs widths heights with
      | Some (_, s) => UpdateTextures_run s rest
      | None => None
      end
  end.

Definition texture_driven_spec (priv : vlc_gl_sampler_priv)
    (texs widths heights : list Z) : Prop :=
  exists s1,
    vlc_gl_sampler_UpdateTextures priv texs widths heights
    = Some (VLC_SUCCESS, s1)
    /\ mtx_all s1 = MATRIX3x2_IDENTITY
    /\ vlc_gl_sampler_MustRecomputeCoords s1 = true
    /\ forall calls c, exists s,
         UpdateTextures_run s1 (calls ++ [c]) = Some s
         /\ mtx_all s = MATRIX3x2_IDENTITY
         /\ vlc_gl_sampler_MustRecomputeCoords s = false.

(** ** What a frame-driven update leaves *)

(** The composite that [UpdateMatrixAll] writes over the old [mtx_all],
    from the matrices of the state [s] the frame leaves. *)
Definition recomputed_composite (old : list F32.t) (s : vlc_gl_sampler_priv)
  : list F32.t :=
  if mtx_transform_defined s then
    MatrixMultiply old (mtx_transform s)
      (MatrixMultiply (zeros (3 * 2)) (mtx_coords_map s) (mtx_orientation s))
  else MatrixMultiply old (mtx_coords_map s) (mtx_orientation s).

Definition has_transform (i : vlc_gl_interop) (r : interop_reply) : bool :=
  match GetTransformMatrix i r with Some _ => true | None => false end.

(** The external transform a state holds, if any. *)
Definition transform_of (p : vlc_gl_sampler_priv) : option (list F32.t) :=
  if mtx_transform_defined p then Some (mtx_transform p) else None.

(** C4 as stated: the flag is raised exactly when the coordinate-map
    matrix or the external transform matrix changed, or the composite was
    not defined yet. *)
Definition flag_iff_matrices_changed (priv : vlc_gl_sampler_priv)
    (picture : picture_t) (r : interop_reply) : Prop :=
  forall ret s,
    vlc_gl_sampler_UpdatePicture priv picture r = Some (ret, s) ->
    (vlc_gl_sampler_MustRecomputeCoords s = true
     <-> mtx_all_defined priv = false
         \/ mtx_coords_map s <> mtx_coords_map priv
         \/ transform_of s <> transform_of priv).

(** An interop that supplies a transform matrix, here the identity, at
    every frame. *)
Definition transforming_interop : vlc_gl_interop := {|
  interop_tex_count := 3; fmt_out := sample_fmt; texs := sample_texs;
  supports_npot := true; handle_texs_gen := false;
  interop_tex_target := GL_TEXTURE_2D; has_get_transform_matrix := true
|}.

Definition transforming_reply : interop_reply := {|
  update_textures_ret := 0; update_textures_texs := [1; 2; 3; 0; 0];
  get_transform_matrix := Some MATRIX3x2_IDENTITY
|}.

Definition transforming_sampler : vlc_gl_sampler_priv :=
  match vlc_gl_sampler_NewFromInterop sample_env transforming_interop false with
  | Some p => p
  | None => calloc_priv
  end.

Definition change_detection_spec (priv : vlc_gl_sampler_priv)
    (i : vlc_gl_interop) (picture : picture_t) (r : interop_reply) : Prop :=
  exists s,
    vlc_gl_sampler_UpdatePicture priv picture r
    = Some (update_textures_ret r, s)
    /\ (vlc_gl_sampler_MustRecomputeCoords s = true
        <-> mtx_all_defined priv = false
            \/ region_differs (format picture) (last_source priv) = true
            \/ GetTransformMatrix i r <> None
            \/ mtx_transform_defined priv = true)
    /\ (vlc_gl_sampler_MustRecomputeCoords s = true ->
          mtx_all s = recomputed_composite (mtx_all priv) s)
    /\ (vlc_gl_sampler_MustRecomputeCoords s = false ->
          mtx_all s = mtx_all priv)
    /\ (GetTransformMatrix i r = None ->
        forall picture2 r2 r3,
          GetTransformMatrix i r2 = None -> GetTransformMatrix i r3 = None ->
          exists s2 s3,
            vlc_gl_sampler_UpdatePicture s picture2 r2
            = Some (update_textures_ret r2, s2)
            /\ vlc_gl_sampler_UpdatePicture s2 picture2 r3
               = Some (update_textures_ret r3, s3)
            /\ vlc_gl_sampler_MustRecomputeCoords s2
               = region_differs (format picture2) (region_of (format picture))
            /\ (format picture2 = format picture ->
                  vlc_gl_sampler_MustRecomputeCoords s2 = false)
            /\ (i_x_offset (format picture2) <> i_x_offset (format picture) ->
                  vlc_gl_sampler_MustRecomputeCoords s2 = true)
            /\ vlc_gl_sampler_MustRecomputeCoords s3 = false).

Definition with_ret (r : interop_reply) (ret : Z) : interop_reply :=
  {| update_textures_ret := ret;
     update_textures_texs := update_textures_texs r;
     get_transform_matrix := get_transform_matrix r |}.

Definition update_not_atomic_spec (priv : vlc_gl_sampler_priv)
    (i : vlc_gl_interop) (picture : picture_t) (r : interop_reply)
    (failure success : Z) : Prop :=
  exists s,
    vlc_gl_sampler_UpdatePicture priv picture (with_ret r failure)
    = Some (failure, s)
    /\ vlc_gl_sampler_UpdatePicture priv picture (with_ret r success)
       = Some (success, s)
    /\ mtx_all_defined s = true
    /\ last_source s = region_of (format picture)
    /\ mtx_coords_map s
       = (if negb (mtx_all_defined priv)
             || region_differs (format picture) (last_source priv)
          then coords_map_of priv (format picture)
          else mtx_coords_map priv)
    /\ transform_of s
       = option_map (fun m => memcpy (mtx_transform priv) 0 m 0 6)
                    (GetTransformMatrix i r)
    /\ vlc_gl_sampler_MustRecomputeCoords s
       = negb (mtx_all_defined priv)
         || region_differs (format picture) (last_source priv)
         || has_transform i r || mtx_transform_defined priv
    /\ mtx_all s
       = (if vlc_gl_sampler_MustRecomputeCoords s
          then recomputed_composite (mtx_all priv) s
          else mtx_all priv).

(** ** Further statements *)

(** One turn of the loop of [vlc_gl_sampler_PicToTexCoords]. *)
Definition tex_x (priv : vlc_gl_sampler_priv) (x y : F32.t) : F32.t :=
  F32.add (F32.add (F32.mul (get (mtx_all priv) 0) x)
                   (F32.mul (get (mtx_all priv) 2) y))
          (get (mtx_all priv) 4).

Definition tex_y (priv : vlc_gl_sampler_priv) (x y : F32.t) : F32.t :=
  F32.add (F32.add (F32.mul (get (mtx_all priv) 1) x)
                   (F32.mul (get (mtx_all priv) 3) y))
          (get (mtx_all priv) 5).

Definition PicToTexCoords_bounds_spec (priv : vlc_gl_sampler_priv)
    (n : nat) (pic out : list F32.t) : Prop :=
  let res := vlc_gl_sampler_PicToTexCoords priv n pic out in
  List.length res = List.length out
  /\ (forall j, (2 * n <= j)%nat -> get res j = get out j)
  /\ (forall i, (i < n)%nat ->
        get res (2 * i) = tex_x priv (get pic (2 * i)) (get pic (2 * i + 1))
        /\ get res (2 * i + 1)
           = tex_y priv (get pic (2 * i)) (get pic (2 * i + 1))).

Definition packed_yuv (chroma : vlc_fourcc_t) : bool :=
  match chroma with
  | VLC_CODEC_UYVY | VLC_CODEC_YUYV | VLC_CODEC_VYUY | VLC_CODEC_YVYU => true
  | _ => false
  end.

Definition no_description_env : environment := {|
  calloc_ok := true; memstream_ok := true; strdup_ok := true;
  has_GL_ARB_texture_rg := true;
  vlc_fourcc_IsYUV := fun _ => false;
  vlc_fourcc_GetChromaDescription := fun _ => None;
  vlc_gl_interop_GenerateTextures := fun _ _ => Some [1; 2; 3; 0; 0]
|}.

Definition fresh_sampler_spec (io : option vlc_gl_interop)
    (f : video_format_t) (target : GLenum) (expose : bool)
    (p : vlc_gl_sampler_priv) : Prop :=
  interop p = io /\ fmt p = f /\ tex_target p = target
  /\ expose_planes p = expose /\ plane p = 0
  /\ mtx_coords_map p = MATRIX3x2_IDENTITY
  /\ mtx_transform_defined p = false
  /\ mtx_all_defined p = false
  /\ pic_to_tex_matrix p = false
  /\ vlc_gl_sampler_MustRecomputeCoords p = false
  /\ vlc_gl_sampler_ComputeDirectionMatrix p (zeros 4) = None.

Definition conversion_setup_spec (E : environment) (f : video_format_t)
    (expose : bool) (p : vlc_gl_sampler_priv) : Prop :=
  exists desc,
    vlc_fourcc_GetChromaDescription E (i_chroma f) = Some desc
    /\ tex_count p = plane_count desc
    /\ yuv_color p
       = negb expose && negb (fourcc_eqb (i_chroma f) VLC_CODEC_XYZ12)
         && vlc_fourcc_IsYUV E (i_chroma f)
    /\ conv_matrix p
       = (if yuv_color p
          then yuv_conv_matrix (conv_matrix calloc_priv) (i_chroma f) desc
                               (space f)
          else conv_matrix calloc_priv).

(** The sizes of plane j that the loop stores. *)
Definition visible_width_of (i : vlc_gl_interop) (j : nat) : Z :=
  plane_size (i_visible_width (fmt_out i))
    (w (nth j (texs i) {| w := {| num := 0; den := 0 |};
                          h := {| num := 0; den := 0 |} |})).

Definition visible_height_of (i : vlc_gl_interop) (j : nat) : Z :=
  plane_size (i_visible_height (fmt_out i))
    (h (nth j (texs i) {| w := {| num := 0; den := 0 |};
                          h := {| num := 0; den := 0 |} |})).

Definition sizes_filled (i : vlc_gl_interop) (n : nat)
    (vw0 vh0 tw0 th0 : list Z)
    (r : list Z * list Z * list Z * list Z) : Prop :=
  let '(vw, vh, tw, th) := r in
  List.length vw = List.length vw0 /\ List.length vh = List.length vh0
  /\ List.length tw = List.length tw0 /\ List.length th = List.length th0
  /\ forall j,
       (if (j <? n)%nat && (j <? List.length vw0)%nat
        then nth j vw 0 = visible_width_of i j
        else nth j vw 0 = nth j vw0 0)
       /\ (if (j <? n)%nat && (j <? List.length vh0)%nat
           then nth j vh 0 = visible_height_of i j
           else nth j vh 0 = nth j vh0 0)
       /\ (if (j <? n)%nat && (j <? List.length tw0)%nat
           then nth j tw 0
                = (if supports_npot i then visible_width_of i j
                   else vlc_align_pot (visible_width_of i j))
           else nth j tw 0 = nth j tw0 0)
       /\ (if (j <? n)%nat && (j <? List.length th0)%nat
           then nth j th 0
                = (if supports_npot i then visible_height_of i j
                   else vlc_align_pot (visible_height_of i j))
           else nth j th 0 = nth j th0 0).

Definition npot_sizes_spec (i : vlc_gl_interop) (p : vlc_gl_sampler_priv)
  : Prop :=
  forall j,
    if (j <? Z.to_nat (tex_count p))%nat && (j <? PICTURE_PLANE_MAX)%nat
    then nth j (visible_widths p) 0 = visible_width_of i j
         /\ nth j (visible_heights p) 0 = visible_height_of i j
         /\ nth j (tex_widths p) 0 = visible_width_of i j
         /\ nth j (tex_heights p) 0 = visible_height_of i j
    else nth j (visible_widths p) 0 = 0 /\ nth j (visible_heights p) 0 = 0
         /\ nth j (tex_widths p) 0 = 0 /\ nth j (tex_heights p) 0 = 0.

Definition delete_matches_generation (E : environment)
    (io : option vlc_gl_interop) (p : vlc_gl_sampler_priv) : Prop :=
  vlc_gl_sampler_Delete p
  = match io with
    | Some i =>
        if handle_texs_gen i then None
        else option_map (fun tx => (tex_count p, tx))
               (vlc_gl_interop_GenerateTextures E (tex_widths p)
                                                (tex_heights p))
    | None => None
    end.


(** Everything that is fixed at construction. *)
Definition same_configuration (p s : vlc_gl_sampler_priv) : Prop :=
  fmt s = fmt p /\ tex_count s = tex_count p
  /\ yuv_color s = yuv_color p /\ conv_matrix s = conv_matrix p
  /\ tex_target s = tex_target p /\ interop s = interop p
  /\ expose_planes s = expose_planes p /\ plane s = plane p
  /\ mtx_orientation s = mtx_orientation p
  /\ visible_widths s = visible_widths p
  /\ visible_heights s = visible_heights p.


Definition textures_copied_spec (p : vlc_gl_sampler_priv)
    (texs widths heights : list Z) : Prop :=
  exists s,
    vlc_gl_sampler_UpdateTextures p texs widths heights
    = Some (VLC_SUCCESS, s)
    /\ same_configuration p s
    /\ mtx_coords_map s = mtx_coords_map p
    /\ forall j,
         let copied :=
           (j <? Z.to_nat (tex_count p))%nat in
         nth j (textures s) 0
         = (if copied && (j <? List.length (textures p))%nat
            then nth j texs 0 else nth j (textures p) 0)
         /\ nth j (tex_widths s) 0
            = (if copied && (j <? List.length (tex_widths p))%nat
               then nth j widths 0 else nth j (tex_widths p) 0)
         /\ nth j (tex_heights s) 0
            = (if copied && (j <? List.length (tex_heights p))%nat
               then nth j heights 0 else nth j (tex_heights p) 0).

Definition alpha_row (m : list F32.t) : Prop :=
  get m 3 = F32.zero /\ get m 7 = F32.zero /\ get m 11 = F32.zero
  /\ get m 15 = F32.of_Z 1.

(** Bit-for-bit comparison of two floats. *)
Definition SF_same (a b : spec_float) : bool :=
  match a, b with
  | S754_zero s, S754_zero s' => Bool.eqb s s'
  | S754_infinity s, S754_infinity s' => Bool.eqb s s'
  | S754_nan, S754_nan => true
  | S754_finite s m e, S754_finite s' m' e' =>
      Bool.eqb s s' && Pos.eqb m m' && Z.eqb e e'
  | _, _ => false
  end.

Definition alpha_rowb (m : list F32.t) : bool :=
  SF_same (get m 3) F32.zero && SF_same (get m 7) F32.zero
  && SF_same (get m 11) F32.zero && SF_same (get m 15) (F32.of_Z 1).

(** The three steps of [sampler_yuv_base_init] with their conditions
    decided. *)
Definition staged_matrix (cs : video_color_space_t) (scale swap : bool)
    (r : F32.t) : list F32.t :=
  let mx := init_conv_matrix (conv_matrix calloc_priv) cs COLOR_RANGE_LIMITED in
  let mx := if scale then scale_first_12 mx r else mx in
  if swap then swap_uv_columns mx else mx.



(** The linear part of a column-major 2x3 matrix. *)
Definition linear_part (m : list F32.t) : list F32.t :=
  [get m 0; get m 1; get m 2; get m 3].

Definition direction_nan_spec (p : vlc_gl_sampler_priv)
    (direction : list F32.t) : Prop :=
  exists d,
    vlc_gl_sampler_ComputeDirectionMatrix p direction = Some d
    /\ get d 0 = S754_nan /\ get d 1 = S754_nan.

(** A frame-driven configuration stored rotated by 90 degrees. *)
Definition rotated_interop : vlc_gl_interop := {|
  interop_tex_count := 3;
  fmt_out := {| i_chroma := VLC_CODEC_I420;
                i_visible_width := 1920; i_visible_height := 1080;
                i_x_offset := 0; i_y_offset := 0;
                orientation := ORIENT_ROTATED_90;
                space := COLOR_SPACE_BT709;
                color_range := COLOR_RANGE_LIMITED |};
  texs := sample_texs;
  supports_npot := true; handle_texs_gen := false;
  interop_tex_target := GL_TEXTURE_2D; has_get_transform_matrix := false
|}.

Definition rotated_sampler : vlc_gl_sampler_priv :=
  match vlc_gl_sampler_NewFromInterop sample_env rotated_interop false with
  | Some p => after_picture p sample_picture sample_reply
  | None => calloc_priv
  end.


(** * Proofs *)

(** ** Case analysis on the construction and update code *)

Ltac break_match :=
  match goal with
  | |- context [match ?x with _ => _ end] =>
      lazymatch x with
      | context [match _ with _ => _ end] => fail
      | _ => destruct x eqn:?
      end
  end.

Ltac simpl_priv :=
  cbn [i_chroma space orientation color_range i_visible_width i_visible_height
       i_x_offset i_y_offset format
       fmt tex_count pic_to_tex_matrix yuv_color conv_matrix tex_widths
       tex_heights visible_widths visible_heights textures tex_target
       last_source interop expose_planes plane mtx_orientation mtx_coords_map
       mtx_transform mtx_transform_defined mtx_all mtx_all_defined
       mtx_all_has_changed option_map fst snd] in *.

Ltac break_match_in H :=
  match type of H with
  | context [match ?x with _ => _ end] =>
      lazymatch x with
      | context [match _ with _ => _ end] => fail
      | _ => destruct x eqn:?
      end
  end.

(** ** Arrays keep their length *)

Lemma length_set {A : Type} (m : list A) (i : nat) (v : A) :
  List.length (set m i v) = List.length m.
Proof.
  revert i; induction m as [|x m IH]; intros [|i]; simpl; auto.
Qed.

Lemma length_fold_set {A B : Type} (idx : B -> nat) (val : list A -> B -> A)
    (l : list B) (m : list A) :
  List.length (fold_left (fun d b => set d (idx b) (val d b)) l m)
  = List.length m.
Proof.
  revert m; induction l as [|b l IH]; intro m; simpl; [reflexivity|].
  rewrite IH; apply length_set.
Qed.

Lemma length_init_conv_matrix m cs r :
  List.length (init_conv_matrix m cs r) = List.length m.
Proof.
  unfold init_conv_matrix. cbn [fold_left seq].
  rewrite !length_set. reflexivity.
Qed.

Lemma length_scale_first_12 m r :
  List.length (scale_first_12 m r) = List.length m.
Proof.
  unfold scale_first_12.
  apply (length_fold_set (fun i => i) (fun d i => F32.mul (get d i) r)).
Qed.

Lemma length_yuv_scaled_matrix m chroma desc cs :
  List.length (yuv_scaled_matrix m chroma desc cs) = List.length m.
Proof.
  unfold yuv_scaled_matrix.
  destruct (pixel_size desc =? 2);
    [destruct (negb _ && negb _)|];
    rewrite ?length_scale_first_12; apply length_init_conv_matrix.
Qed.

(** A [float[16]] spelled out, for proofs by evaluation on its entries. *)
Ltac explode16 m H :=
  do 16 (destruct m as [|? m]; [discriminate H|]);
  destruct m; [clear H|discriminate H].

(** What the scaling loop does to each entry. *)
Lemma scale_first_12_get m r i :
  List.length m = 16%nat ->
  get (scale_first_12 m r) i
  = if (i <? 12)%nat then F32.mul (get m i) r else get m i.
Proof.
  intro H. explode16 m H.
  do 16 (destruct i as [|i]; [reflexivity|]).
  destruct i; reflexivity.
Qed.

(** What the three copies of the swap do to each entry. *)
Lemma swap_uv_columns_get m col row :
  List.length m = 16%nat -> (col < 4)%nat -> (row < 4)%nat ->
  get (swap_uv_columns m) (col * 4 + row) = get m (swapped_col col * 4 + row).
Proof.
  intros H Hc Hr. explode16 m H.
  do 4 (destruct col as [|col]; [do 4 (destruct row as [|row]; [reflexivity|]); lia|]).
  lia.
Qed.

Lemma swap_uv_columns_involutive m :
  List.length m = 16%nat -> swap_uv_columns (swap_uv_columns m) = m.
Proof.
  intro H. explode16 m H. reflexivity.
Qed.

Lemma swap_uv_iff chroma :
  swap_uv chroma = true
  <-> chroma = VLC_CODEC_YV12 \/ chroma = VLC_CODEC_YV9
      \/ chroma = VLC_CODEC_NV21.
Proof.
  destruct chroma; cbn; split; intro H; auto;
    try discriminate H;
    repeat (destruct H as [H|H]; try discriminate H); discriminate H.
Qed.

Lemma fourcc_eqb_eq a b : fourcc_eqb a b = true <-> a = b.
Proof.
  destruct a, b; cbn; split; intro H;
    try reflexivity; try discriminate H.
  - apply Z.eqb_eq in H; congruence.
  - injection H as ->; apply Z.eqb_refl.
Qed.

Lemma fourcc_eqb_neq a b : a <> b -> fourcc_eqb a b = false.
Proof.
  intro H; destruct (fourcc_eqb a b) eqn:Heq; [|reflexivity].
  apply fourcc_eqb_eq in Heq; contradiction.
Qed.

(** ** The conversion matrix on neutral gray *)

Lemma near_blackb_sound m pixel : near_blackb m pixel = true -> near_black m pixel.
Proof.
  unfold near_blackb, near_black; intro H.
  apply andb_prop in H as [H H2]; apply andb_prop in H as [H0 H1].
  repeat split; apply Qle_bool_iff; assumption.
Qed.

(** C6. For BT.601, BT.709 and BT.2020 (and the BT.709 fallback of every
    other colour space), the matrix that [init_conv_matrix] builds for the
    limited range sends the limited-range neutral gray (16/255, 128/255,
    128/255, 1) to an RGB within 2^-23 of (0,0,0), and the matrix it builds
    for the full range does the same to (0, 128/255, 128/255, 1). *)
Theorem init_conv_matrix_neutral_gray (cs : video_color_space_t) :
  near_black (init_conv_matrix (conv_matrix calloc_priv) cs COLOR_RANGE_LIMITED)
             neutral_limited
  /\ near_black (init_conv_matrix (conv_matrix calloc_priv) cs COLOR_RANGE_FULL)
                neutral_full.
Proof.
  split; apply near_blackb_sound; destruct cs; vm_compute; reflexivity.
Qed.

(** ** Bit-depth correction *)

(** C7, as stated, fails on a 10-bit planar format: the bias entry of row 0
    (index 12) is not multiplied. *)
Lemma first_three_rows_not_scaled :
  ~ first_three_rows_scaled
      (init_conv_matrix (conv_matrix calloc_priv) COLOR_SPACE_BT709
                        COLOR_RANGE_LIMITED)
      (yuv_scaled_matrix (conv_matrix calloc_priv) VLC_CODEC_I420_10L
                         desc_I420_10L COLOR_SPACE_BT709)
      (yuv_range_correction desc_I420_10L).
Proof.
  intro H. specialize (H 0%nat 3%nat ltac:(lia) ltac:(lia)).
  vm_compute in H. discriminate H.
Qed.

(** C7 (amended). For a YUV source on 2-byte samples whose chroma is
    neither P010 nor P016, the first three columns of the column-major
    matrix (its first twelve floats, the bias column excluded) are
    multiplied by the float quotient 65535 / (2^pixel_bits - 1), which for
    10 bits is the float nearest to 65535/1023; this happens after
    [init_conv_matrix] and before the U/V swap; P010 and P016 are left
    unscaled. *)
Theorem bit_depth_correction_scales_columns m chroma desc cs :
  List.length m = 16%nat -> pixel_size desc = 2 ->
  bit_depth_correction_spec m chroma desc cs.
Proof.
  intros Hlen Hsize. unfold bit_depth_correction_spec.
  assert (Hm0 : List.length (init_conv_matrix m cs COLOR_RANGE_LIMITED) = 16%nat)
    by (rewrite length_init_conv_matrix; exact Hlen).
  unfold yuv_scaled_matrix. rewrite Hsize, Z.eqb_refl.
  split; [|split; [|split]].
  - intros [H10 H16].
    rewrite (fourcc_eqb_neq _ _ H10), (fourcc_eqb_neq _ _ H16); cbn [negb andb].
    split.
    + intros col row Hc Hr.
      rewrite scale_first_12_get by exact Hm0.
      replace (col * 4 + row <? 12)%nat with true
        by (symmetry; apply Nat.ltb_lt; lia).
      reflexivity.
    + intros row Hr.
      rewrite scale_first_12_get by exact Hm0.
      replace (3 * 4 + row <? 12)%nat with false
        by (symmetry; apply Nat.ltb_ge; lia).
      reflexivity.
  - intros [-> | ->]; reflexivity.
  - unfold yuv_conv_matrix, yuv_scaled_matrix.
    rewrite Hsize, Z.eqb_refl; reflexivity.
  - intro Hbits. unfold yuv_range_correction; rewrite Hbits.
    split; [reflexivity|].
    apply Qle_bool_iff; vm_compute; reflexivity.
Qed.

Lemma bit_depth_correction_scales_columns_witness :
  bit_depth_correction_spec (conv_matrix calloc_priv) VLC_CODEC_I420_10L
                            desc_I420_10L COLOR_SPACE_BT709.
Proof.
  apply bit_depth_correction_scales_columns; reflexivity.
Defined.

(** ** U/V swap *)

(** C8. The conversion matrix has its columns 1 and 2 exchanged, every
    entry staying in its row, exactly when the chroma is YV12, YV9 or NV21,
    as the last step of [sampler_yuv_base_init]; exchanging them twice
    gives back the same sixteen floats. *)
Theorem uv_swap_columns_involution m chroma desc cs :
  List.length m = 16%nat -> uv_swap_spec m chroma desc cs.
Proof.
  intro Hlen. unfold uv_swap_spec, yuv_conv_matrix.
  split; [apply swap_uv_iff|].
  split; [|split].
  - intros Hs col row Hc Hr. rewrite Hs.
    apply swap_uv_columns_get; auto.
    rewrite length_yuv_scaled_matrix; exact Hlen.
  - intros ->; reflexivity.
  - intros x Hx; apply swap_uv_columns_involutive; exact Hx.
Qed.

Lemma uv_swap_columns_involution_witness :
  uv_swap_spec (conv_matrix calloc_priv) VLC_CODEC_YV12
               {| plane_count := 3; pixel_size := 1; pixel_bits := 8 |}
               COLOR_SPACE_BT601.
Proof.
  apply uv_swap_columns_involution; reflexivity.
Defined.

(** ** Orientation matrices against the table of section 4.3 *)

(** Construction stores whatever [InitOrientationMatrix] makes of the
    zeroed block. *)
Lemma CreateSampler_mtx_orientation E io f target expose p :
  CreateSampler E io f target expose = Some p ->
  mtx_orientation p
  = InitOrientationMatrix (mtx_orientation calloc_priv) (orientation f).
Proof.
  unfold CreateSampler, opengl_fragment_shader_init.
  simpl_priv.
  repeat (break_match; simpl_priv; try discriminate).
  all: intro H; injection H as <-; reflexivity.
Qed.

(** C2 on the code. The seven rotated, flipped and transposed orientations
    get the matrix of their table row; the normal orientation has no case
    in the switch, so the matrix keeps the zeros of [calloc] and is not
    the identity row of the table. *)
Theorem orientation_matrix_normal_left_zero :
  Forall (fun o => InitOrientationMatrix (mtx_orientation calloc_priv) o
                   = matrix_of_rows (orientation_rows o))
         [ORIENT_ROTATED_90; ORIENT_ROTATED_180; ORIENT_ROTATED_270;
          ORIENT_HFLIPPED; ORIENT_VFLIPPED;
          ORIENT_TRANSPOSED; ORIENT_ANTI_TRANSPOSED]
  /\ InitOrientationMatrix (mtx_orientation calloc_priv) ORIENT_NORMAL
     = zeros 6
  /\ zeros 6 <> matrix_of_rows (orientation_rows ORIENT_NORMAL)
  /\ vlc_gl_sampler_NewFromInterop sample_env sample_interop false
     = Some sample_sampler
  /\ mtx_orientation sample_sampler = zeros 6.
Proof.
  split; [repeat constructor|].
  split; [reflexivity|].
  split; [intro H; vm_compute in H; discriminate H|].
  split; vm_compute; reflexivity.
Qed.

(** ** The 2x3 matrix product *)

(** What the loop computes for every column, the two linear ones included. *)
Lemma MatrixMultiply_get out a b i j :
  List.length out = 6%nat -> (i < 3)%nat -> (j < 2)%nat ->
  get (MatrixMultiply out a b) (i*2 + j)
  = F32.add (F32.add (F32.mul (get a (0*2 + j)) (get b (i*2 + 0)))
                     (F32.mul (get a (1*2 + j)) (get b (i*2 + 1))))
            (get a (2*2 + j)).
Proof.
  intros H Hi Hj.
  do 6 (destruct out as [|? out]; [discriminate H|]).
  destruct out; [|discriminate H].
  do 3 (destruct i as [|i]; [do 2 (destruct j as [|j]; [reflexivity|]); lia|]).
  lia.
Qed.

(** C3 on the code. Composing the translation by (1,0) with the identity
    must give the translation back; [MatrixMultiply] adds the translation
    of its left operand to the two linear columns as well and returns
    [[2,1,1],[0,1,0]]. *)
Theorem MatrixMultiply_translation_in_every_column :
  MatrixMultiply (zeros 6) shift_right MATRIX3x2_IDENTITY
  = map F32.of_Z [2; 0; 1; 1; 1; 0]
  /\ affine_compose shift_right MATRIX3x2_IDENTITY = shift_right
  /\ MatrixMultiply (zeros 6) shift_right MATRIX3x2_IDENTITY
     <> affine_compose shift_right MATRIX3x2_IDENTITY.
Proof.
  split; [vm_compute; reflexivity|].
  split; [vm_compute; reflexivity|].
  intro H; vm_compute in H; discriminate H.
Qed.

(** ** Picture corners through the composite matrix *)

(** C1 on the code. The sample sampler has the normal orientation and its
    picture fills the texture with zero offsets, so the coordinate map is
    the identity; the composite nevertheless is the zero matrix, because
    the orientation matrix was left zero, and both corners land on (0,0).
    With the identity stored as orientation matrix the same update sends
    the corners to themselves. *)
Theorem PicToTexCoords_normal_orientation_collapses :
  vlc_gl_sampler_UpdatePicture sample_sampler sample_picture sample_reply
  = Some (0, after_picture sample_sampler sample_picture sample_reply)
  /\ mtx_coords_map (after_picture sample_sampler sample_picture sample_reply)
     = MATRIX3x2_IDENTITY
  /\ mtx_all (after_picture sample_sampler sample_picture sample_reply)
     = zeros 6
  /\ vlc_gl_sampler_PicToTexCoords
       (after_picture sample_sampler sample_picture sample_reply)
       2 corners (zeros 4)
     = map F32.of_Z [0; 0; 0; 0]
  /\ map F32.of_Z [0; 0; 0; 0] <> corners
  /\ vlc_gl_sampler_PicToTexCoords
       (after_picture (with_mtx_orientation sample_sampler MATRIX3x2_IDENTITY)
                      sample_picture sample_reply)
       2 corners (zeros 4)
     = corners.
Proof.
  split; [vm_compute; reflexivity|].
  split; [vm_compute; reflexivity|].
  split; [vm_compute; reflexivity|].
  split; [vm_compute; reflexivity|].
  split; [intro H; vm_compute in H; discriminate H|].
  vm_compute; reflexivity.
Qed.

(** ** The range tag of the source *)

Lemma CreateSampler_conv_matrix_range E io f target expose r :
  option_map conv_matrix (CreateSampler E io f target expose)
  = option_map conv_matrix
      (CreateSampler E io (with_color_range f r) target expose).
Proof.
  unfold CreateSampler, opengl_fragment_shader_init, with_color_range.
  simpl_priv.
  repeat (break_match; simpl_priv; try reflexivity; try congruence).
Qed.

(** C9. Whatever range tag the source format carries, construction yields
    the same conversion matrix; the YUV initialisation hands
    [COLOR_RANGE_LIMITED] to [init_conv_matrix] for every chroma, and a
    source tagged full range gets the limited-range matrix, which is not
    the full-range one. *)
Theorem conv_matrix_always_limited_range :
  (forall E io f target expose r,
     option_map conv_matrix (CreateSampler E io f target expose)
     = option_map conv_matrix
         (CreateSampler E io (with_color_range f r) target expose))
  /\ (forall m chroma desc cs,
        yuv_scaled_matrix m chroma desc cs
        = init_conv_matrix m cs COLOR_RANGE_LIMITED
        \/ yuv_scaled_matrix m chroma desc cs
           = scale_first_12 (init_conv_matrix m cs COLOR_RANGE_LIMITED)
                            (yuv_range_correction desc))
  /\ option_map conv_matrix
       (CreateSampler sample_env (Some sample_interop)
          (with_color_range sample_fmt COLOR_RANGE_FULL) GL_TEXTURE_2D false)
     = Some (init_conv_matrix (conv_matrix calloc_priv) COLOR_SPACE_BT709
                              COLOR_RANGE_LIMITED)
  /\ init_conv_matrix (conv_matrix calloc_priv) COLOR_SPACE_BT709
                      COLOR_RANGE_LIMITED
     <> init_conv_matrix (conv_matrix calloc_priv) COLOR_SPACE_BT709
                         COLOR_RANGE_FULL.
Proof.
  split; [exact CreateSampler_conv_matrix_range|].
  split.
  - intros m chroma desc cs. unfold yuv_scaled_matrix.
    destruct (pixel_size desc =? 2); [|left; reflexivity].
    destruct (negb _ && negb _); [right|left]; reflexivity.
  - split; [vm_compute; reflexivity|].
    intro H; vm_compute in H; discriminate H.
Qed.

(** ** Texture-driven updates *)

Lemma NewFromTexture2D_fresh E f expose priv :
  vlc_gl_sampler_NewFromTexture2D E f expose = Some priv ->
  interop priv = None /\ mtx_all_defined priv = false /\ mtx_all priv = zeros 6.
Proof.
  unfold vlc_gl_sampler_NewFromTexture2D, CreateSampler,
    opengl_fragment_shader_init.
  simpl_priv.
  repeat (break_match; simpl_priv; try discriminate).
  all: intro H; injection H as <-; repeat split; reflexivity.
Qed.

(** Once the composite is defined, a texture update keeps it and clears the
    flag. *)
Lemma UpdateTextures_steady priv texs widths heights :
  interop priv = None -> mtx_all_defined priv = true ->
  exists s,
    vlc_gl_sampler_UpdateTextures priv texs widths heights
    = Some (VLC_SUCCESS, s)
    /\ interop s = None /\ mtx_all_defined s = true
    /\ mtx_all s = mtx_all priv
    /\ vlc_gl_sampler_MustRecomputeCoords s = false.
Proof.
  intros Hi Hd. unfold vlc_gl_sampler_UpdateTextures.
  rewrite Hi, Hd. cbn [negb]. eexists; split; [reflexivity|].
  simpl_priv. unfold vlc_gl_sampler_MustRecomputeCoords. simpl_priv.
  repeat split; assumption.
Qed.

Lemma UpdateTextures_run_steady calls : forall priv c,
  interop priv = None -> mtx_all_defined priv = true ->
  exists s,
    UpdateTextures_run priv (calls ++ [c]) = Some s
    /\ mtx_all s = mtx_all priv
    /\ vlc_gl_sampler_MustRecomputeCoords s = false.
Proof.
  induction calls as [|[[t1 w1] h1] calls IH]; intros priv [[t w0] h0] Hi Hd.
  - destruct (UpdateTextures_steady priv t w0 h0 Hi Hd)
      as (s & Hs & _ & _ & Hm & Hf).
    exists s. cbn [app UpdateTextures_run]. rewrite Hs. auto.
  - destruct (UpdateTextures_steady priv t1 w1 h1 Hi Hd)
      as (s1 & Hs & Hi1 & Hd1 & Hm1 & _).
    destruct (IH s1 (t, w0, h0) Hi1 Hd1) as (s & Hrun & Hm & Hf).
    exists s. cbn [app UpdateTextures_run]. rewrite Hs.
    split; [exact Hrun|]. split; [congruence|exact Hf].
Qed.

(** C5. On a sampler made by [vlc_gl_sampler_NewFromTexture2D], the first
    [vlc_gl_sampler_UpdateTextures] succeeds, stores the identity in the
    composite matrix and raises the changed flag; after any further
    calls, whatever their arguments, the composite is still the identity
    and the flag is down. *)
Theorem UpdateTextures_identity_once E f expose priv texs widths heights :
  vlc_gl_sampler_NewFromTexture2D E f expose = Some priv ->
  texture_driven_spec priv texs widths heights.
Proof.
  intro Hnew.
  destruct (NewFromTexture2D_fresh _ _ _ _ Hnew) as (Hi & Hd & Hm).
  unfold texture_driven_spec, vlc_gl_sampler_UpdateTextures.
  rewrite Hi, Hd, Hm. cbn [negb].
  eexists; split; [reflexivity|].
  simpl_priv. unfold vlc_gl_sampler_MustRecomputeCoords. simpl_priv.
  split; [reflexivity|]. split; [reflexivity|].
  intros calls c.
  match goal with
  | |- exists s, UpdateTextures_run ?s1 _ = _ /\ _ =>
      destruct (UpdateTextures_run_steady calls s1 c)
        as (s & Hrun & Hms & Hf);
        [simpl_priv; first [reflexivity | assumption] | reflexivity |]
  end.
  exists s. split; [exact Hrun|]. split; [rewrite Hms; reflexivity|exact Hf].
Qed.

Lemma UpdateTextures_identity_once_witness :
  texture_driven_spec
    (match vlc_gl_sampler_NewFromTexture2D sample_env sample_fmt false with
     | Some p => p
     | None => calloc_priv
     end)
    [7; 8; 9] [1920; 960; 960] [1080; 540; 540].
Proof.
  apply (UpdateTextures_identity_once sample_env sample_fmt false).
  vm_compute; reflexivity.
Defined.

(** ** Frame-driven updates *)

Lemma region_differs_false source l :
  region_differs source l = false -> l = region_of source.
Proof.
  unfold region_differs, region_of. destruct l as [x y w0 h0]; cbn.
  intro H.
  repeat (apply orb_false_elim in H as [H ?]).
  repeat match goal with
         | H : negb (_ =? _) = false |- _ =>
             apply negb_false_iff, Z.eqb_eq in H
         end.
  congruence.
Qed.

Lemma region_differs_same source :
  region_differs source (region_of source) = false.
Proof.
  unfold region_differs, region_of; cbn. rewrite !Z.eqb_refl. reflexivity.
Qed.

Lemma region_differs_offset source source' :
  i_x_offset source' <> i_x_offset source ->
  region_differs source' (region_of source) = true.
Proof.
  intro H. unfold region_differs, region_of; cbn.
  apply Z.eqb_neq in H. rewrite H. reflexivity.
Qed.

(** Everything a frame does to the matrices, whatever the interop
    returned. *)
Lemma UpdatePicture_effect priv i picture r :
  interop priv = Some i ->
  exists s,
    vlc_gl_sampler_UpdatePicture priv picture r
    = Some (update_textures_ret r, s)
    /\ interop s = Some i
    /\ mtx_all_defined s = true
    /\ last_source s = region_of (format picture)
    /\ mtx_transform_defined s = has_transform i r
    /\ vlc_gl_sampler_MustRecomputeCoords s
       = negb (mtx_all_defined priv)
         || region_differs (format picture) (last_source priv)
         || has_transform i r || mtx_transform_defined priv
    /\ mtx_coords_map s
       = (if negb (mtx_all_defined priv)
             || region_differs (format picture) (last_source priv)
          then coords_map_of priv (format picture)
          else mtx_coords_map priv)
    /\ mtx_transform s
       = match GetTransformMatrix i r with
         | Some m => memcpy (mtx_transform priv) 0 m 0 6
         | None => mtx_transform priv
         end
    /\ mtx_all s
       = (if vlc_gl_sampler_MustRecomputeCoords s
          then recomputed_composite (mtx_all priv) s
          else mtx_all priv).
Proof.
  intro Hi.
  unfold vlc_gl_sampler_UpdatePicture, has_transform,
    vlc_gl_sampler_MustRecomputeCoords, recomputed_composite, UpdateMatrixAll.
  rewrite Hi.
  pose proof (region_differs_false (format picture) (last_source priv)) as Hreg.
  destruct (GetTransformMatrix i r) as [m|];
    destruct (mtx_all_defined priv) eqn:Hd;
    destruct (region_differs (format picture) (last_source priv));
    destruct (mtx_transform_defined priv) eqn:Ht;
    cbn [negb orb andb]; simpl_priv; rewrite ?Ht; cbn [negb orb andb];
    eexists; (split; [reflexivity|]); simpl_priv;
    repeat split; auto.
Qed.

(** *** Change detection *)

(** The second of two identical frames raises the flag although no matrix
    changed: the transform is taken as changed whenever it is present. *)
Lemma flag_raised_without_change :
  ~ flag_iff_matrices_changed
      (after_picture transforming_sampler sample_picture transforming_reply)
      sample_picture transforming_reply.
Proof.
  intro H.
  destruct (vlc_gl_sampler_UpdatePicture
              (after_picture transforming_sampler sample_picture
                             transforming_reply)
              sample_picture transforming_reply) as [[ret s]|] eqn:Hup.
  - pose proof (H ret s Hup) as [Hflag _].
    vm_compute in Hup. injection Hup as <- <-.
    destruct (Hflag eq_refl) as [Hc|[Hc|Hc]].
    + vm_compute in Hc; discriminate Hc.
    + apply Hc; vm_compute; reflexivity.
    + apply Hc; vm_compute; reflexivity.
  - vm_compute in Hup; discriminate Hup.
Qed.

(** C4 (amended). On a frame-driven sampler, an update recomputes the
    composite and raises the flag if and only if the composite was never
    defined, or the visible region of the picture differs from the one
    recorded at the previous update, or the interop supplies a transform
    matrix for this frame (its values are not compared), or a transform
    was defined before and is absent now; otherwise the composite is kept
    as it is and the flag lowered. With no transform matrix, a second
    frame with the same region leaves the flag down, and a frame with
    another offset raises it for that frame only. *)
Theorem UpdatePicture_change_detection priv i picture r :
  interop priv = Some i -> change_detection_spec priv i picture r.
Proof.
  intro Hi.
  destruct (UpdatePicture_effect priv i picture r Hi)
    as (s & Hup & Hsi & Hsd & Hsl & Hst & Hflag & _ & _ & Hall).
  exists s. split; [exact Hup|].
  split; [|split; [|split]].
  - rewrite Hflag, !orb_true_iff, negb_true_iff. unfold has_transform.
    destruct (GetTransformMatrix i r); intuition (try discriminate; congruence).
  - intro H; rewrite Hall, H; reflexivity.
  - intro H; rewrite Hall, H; reflexivity.
  - intros Hno picture2 r2 r3 Hno2 Hno3.
    destruct (UpdatePicture_effect s i picture2 r2 Hsi)
      as (s2 & Hup2 & Hsi2 & Hsd2 & Hsl2 & Hst2 & Hflag2 & _).
    destruct (UpdatePicture_effect s2 i picture2 r3 Hsi2)
      as (s3 & Hup3 & _ & _ & _ & _ & Hflag3 & _).
    unfold has_transform in *.
    rewrite Hno in Hst. rewrite Hno2 in Hst2, Hflag2. rewrite Hno3 in Hflag3.
    rewrite Hsd, Hsl, Hst in Hflag2. cbn in Hflag2.
    rewrite !orb_false_r in Hflag2.
    rewrite Hsd2, Hsl2, Hst2, region_differs_same in Hflag3. cbn in Hflag3.
    exists s2, s3.
    split; [exact Hup2|]. split; [exact Hup3|]. split; [exact Hflag2|].
    split; [|split; [|exact Hflag3]].
    + intro Heq. rewrite Hflag2, Heq. apply region_differs_same.
    + intro Hne. rewrite Hflag2. apply region_differs_offset; exact Hne.
Qed.

Lemma UpdatePicture_change_detection_witness :
  change_detection_spec sample_sampler sample_interop sample_picture
                        sample_reply.
Proof.
  apply UpdatePicture_change_detection. vm_compute; reflexivity.
Defined.

(** *** A failing texture upload *)

(** The interop's return value reaches the caller and nothing else. *)
Lemma UpdatePicture_with_ret priv picture r ret :
  vlc_gl_sampler_UpdatePicture priv picture (with_ret r ret)
  = option_map (fun '(_, s) => (ret, s))
               (vlc_gl_sampler_UpdatePicture priv picture r).
Proof.
  unfold vlc_gl_sampler_UpdatePicture, with_ret, GetTransformMatrix.
  destruct (interop priv) as [i|]; [|reflexivity].
  cbn [update_textures_ret update_textures_texs get_transform_matrix].
  destruct (if has_get_transform_matrix i then get_transform_matrix r else None);
    destruct (mtx_all_defined priv);
    destruct (region_differs (format picture) (last_source priv));
    destruct (mtx_transform_defined priv); reflexivity.
Qed.

(** C10. Whatever status [update_textures] returns, the caller gets that
    very status, and the sampler ends in the state a successful upload
    would have left: coordinate map, recorded source region, transform,
    composite and changed flag are all brought up to date. *)
Theorem UpdatePicture_failure_still_updates priv i picture r failure success :
  interop priv = Some i ->
  update_not_atomic_spec priv i picture r failure success.
Proof.
  intro Hi.
  destruct (UpdatePicture_effect priv i picture r Hi)
    as (s & Hup & _ & Hsd & Hsl & Hst & Hflag & Hmap & Htr & Hall).
  exists s. rewrite !UpdatePicture_with_ret, Hup. cbn [option_map].
  repeat (split; [first [reflexivity | assumption]|]).
  split; [|split; assumption].
  unfold transform_of. rewrite Hst, Htr. unfold has_transform.
  destruct (GetTransformMatrix i r); reflexivity.
Qed.

(** A failed upload on the first frame: the status is -1 and the composite
    is defined all the same. *)
Lemma UpdatePicture_failure_still_updates_witness :
  update_not_atomic_spec sample_sampler sample_interop sample_picture
                         sample_reply (-1) 0.
Proof.
  apply UpdatePicture_failure_still_updates. vm_compute; reflexivity.
Defined.

(** * Further properties of the sampler *)

(** ** Reads after writes *)

Lemma nth_set_eq {A : Type} (m : list A) (i : nat) (v d : A) :
  (i < List.length m)%nat -> nth i (set m i v) d = v.
Proof.
  revert i; induction m as [|x m IH]; intros [|i] H; simpl in *;
    try lia; auto. apply IH; lia.
Qed.

Lemma nth_set_neq {A : Type} (m : list A) (i j : nat) (v d : A) :
  i <> j -> nth j (set m i v) d = nth j m d.
Proof.
  revert i j; induction m as [|x m IH]; intros [|i] [|j] H; simpl;
    try reflexivity; try lia. apply IH; lia.
Qed.

Lemma get_set_eq (m : list F32.t) (i : nat) (v : F32.t) :
  (i < List.length m)%nat -> get (set m i v) i = v.
Proof. apply nth_set_eq. Qed.

Lemma get_set_neq (m : list F32.t) (i j : nat) (v : F32.t) :
  i <> j -> get (set m i v) j = get m j.
Proof. apply nth_set_neq. Qed.

(** ** Coordinate mapping: bounds and aliasing *)

Lemma PicToTexCoords_S priv n pic out :
  vlc_gl_sampler_PicToTexCoords priv (S n) pic out
  = let prev := vlc_gl_sampler_PicToTexCoords priv n pic out in
    set (set prev (2 * n) (tex_x priv (get pic (2 * n)) (get pic (2 * n + 1))))
        (2 * n + 1) (tex_y priv (get pic (2 * n)) (get pic (2 * n + 1))).
Proof.
  unfold vlc_gl_sampler_PicToTexCoords.
  rewrite seq_S, fold_left_app. cbn [fold_left Nat.add].
  rewrite !Nat.add_0_r. reflexivity.
Qed.

(** X1. When the output buffer holds at least [coords_count] pairs,
    [vlc_gl_sampler_PicToTexCoords] keeps its length, writes pair i with the
    composite applied to input pair i for every i below [coords_count], and
    leaves every float from index 2 * coords_count on as it was. *)
Theorem PicToTexCoords_writes_exactly_its_pairs priv n pic out :
  (2 * n <= List.length out)%nat ->
  PicToTexCoords_bounds_spec priv n pic out.
Proof.
  unfold PicToTexCoords_bounds_spec.
  induction n as [|n IH]; intro Hlen.
  - cbn. split; [reflexivity|]. split; [reflexivity|]. intros i Hi; lia.
  - destruct IH as (Hl & Hout & Hin); [lia|].
    rewrite PicToTexCoords_S. cbv zeta.
    split; [rewrite !length_set; exact Hl|].
    split.
    + intros j Hj. rewrite !get_set_neq by lia.
      apply Hout; lia.
    + intros i Hi.
      destruct (Nat.eq_dec i n) as [->|Hne].
      * split.
        -- rewrite get_set_neq by lia. apply get_set_eq. lia.
        -- apply get_set_eq. rewrite length_set. lia.
      * rewrite !get_set_neq by lia. apply Hin; lia.
Qed.

Lemma PicToTexCoords_writes_exactly_its_pairs_witness :
  PicToTexCoords_bounds_spec
    (after_picture sample_sampler sample_picture sample_reply)
    2 corners (zeros 6).
Proof.
  apply PicToTexCoords_writes_exactly_its_pairs. vm_compute. lia.
Defined.

Lemma PicToTexCoords_in_place_S priv n buf :
  PicToTexCoords_in_place priv (S n) buf
  = let prev := PicToTexCoords_in_place priv n buf in
    set (set prev (2 * n)
             (tex_x priv (get prev (2 * n)) (get prev (2 * n + 1))))
        (2 * n + 1) (tex_y priv (get prev (2 * n)) (get prev (2 * n + 1))).
Proof.
  unfold PicToTexCoords_in_place.
  rewrite seq_S, fold_left_app. cbn [fold_left Nat.add].
  rewrite !Nat.add_0_r. reflexivity.
Qed.

(** X2. Called with the input buffer as output buffer, the loop gives the
    same result as with separate buffers: each pair is read before it is
    overwritten, and no later pair is written early. *)
Theorem PicToTexCoords_in_place_agrees priv n coords :
  PicToTexCoords_in_place priv n coords
  = vlc_gl_sampler_PicToTexCoords priv n coords coords.
Proof.
  assert (H : PicToTexCoords_in_place priv n coords
              = vlc_gl_sampler_PicToTexCoords priv n coords coords
              /\ forall j, (2 * n <= j)%nat ->
                   get (PicToTexCoords_in_place priv n coords) j
                   = get coords j).
  { induction n as [|n [IHeq IHrest]].
    - split; [reflexivity|]. intros; reflexivity.
    - rewrite PicToTexCoords_in_place_S, PicToTexCoords_S. cbv zeta.
      rewrite !IHrest by lia. rewrite <- IHeq.
      split; [reflexivity|].
      intros j Hj. rewrite !get_set_neq by lia.
      apply IHrest; lia. }
  exact (proj1 H).
Qed.

(** ** Swizzles *)

(** X3. Whenever [opengl_init_swizzle] succeeds for a format of one, two or
    three planes, the swizzles of its planes name three channels in all and
    none of the asserts on [color_count] fails. *)
Theorem swizzle_channels_sum_to_three E chroma desc sw :
  opengl_init_swizzle E chroma desc = (VLC_SUCCESS, sw) ->
  1 <= plane_count desc <= 3 ->
  yuv_color_count sw 0 (Z.to_nat (plane_count desc)) 0 = Some 3.
Proof.
  intros H Hpc.
  assert (Hc : plane_count desc = 1 \/ plane_count desc = 2
               \/ plane_count desc = 3) by lia.
  unfold opengl_init_swizzle in H.
  destruct Hc as [Hc|[Hc|Hc]]; rewrite Hc in *; cbn in H.
  - destruct chroma; cbn in H; try discriminate H;
      injection H as <-; reflexivity.
  - destruct (has_GL_ARB_texture_rg E); injection H as <-; reflexivity.
  - injection H as <-; reflexivity.
Qed.

Lemma swizzle_channels_sum_to_three_witness :
  yuv_color_count
    (snd (opengl_init_swizzle sample_env VLC_CODEC_YUYV
            {| plane_count := 1; pixel_size := 2; pixel_bits := 8 |}))
    0 (Z.to_nat 1) 0 = Some 3.
Proof.
  apply (swizzle_channels_sum_to_three sample_env VLC_CODEC_YUYV
           {| plane_count := 1; pixel_size := 2; pixel_bits := 8 |}).
  - reflexivity.
  - cbn; lia.
Defined.

(** X4. For a single-plane format [opengl_init_swizzle] succeeds exactly for
    the four packed chromas UYVY, YUYV, VYUY and YVYU. *)
Theorem single_plane_swizzle_needs_packed_yuv E chroma desc :
  plane_count desc = 1 ->
  (fst (opengl_init_swizzle E chroma desc) = VLC_SUCCESS
   <-> packed_yuv chroma = true).
Proof.
  intro H. unfold opengl_init_swizzle. rewrite H. cbn.
  destruct chroma; cbn; split; intro Hx;
    try reflexivity; discriminate Hx.
Qed.

Lemma single_plane_swizzle_needs_packed_yuv_witness :
  fst (opengl_init_swizzle sample_env VLC_CODEC_NV21
         {| plane_count := 1; pixel_size := 1; pixel_bits := 8 |})
  = VLC_SUCCESS
  <-> packed_yuv VLC_CODEC_NV21 = true.
Proof.
  apply single_plane_swizzle_needs_packed_yuv. reflexivity.
Defined.

(** ** What construction returns *)

(** X5. A chroma without description makes construction return NULL,
    whatever the mode and the other arguments. *)
Theorem CreateSampler_unknown_chroma E io f target expose :
  vlc_fourcc_GetChromaDescription E (i_chroma f) = None ->
  CreateSampler E io f target expose = None.
Proof.
  intro H. unfold CreateSampler, opengl_fragment_shader_init.
  simpl_priv. rewrite H. destruct (negb (calloc_ok E)); reflexivity.
Qed.

Lemma CreateSampler_unknown_chroma_witness :
  CreateSampler no_description_env (Some sample_interop) sample_fmt
                GL_TEXTURE_2D false = None.
Proof.
  apply CreateSampler_unknown_chroma. reflexivity.
Defined.

(** X7. A sampler that construction returns holds the interop, format, target
    and plane-exposure flag it was given, selects plane 0, has the identity
    as coordinate map, no transform and no composite yet: it reports no
    change of coordinates, and the direction matrix cannot be computed. *)
Theorem CreateSampler_fresh E io f target expose p :
  CreateSampler E io f target expose = Some p ->
  fresh_sampler_spec io f target expose p.
Proof.
  unfold CreateSampler, opengl_fragment_shader_init, fresh_sampler_spec.
  simpl_priv.
  repeat (break_match; simpl_priv; try discriminate).
  all: intro H; injection H as <-;
    unfold vlc_gl_sampler_MustRecomputeCoords,
      vlc_gl_sampler_ComputeDirectionMatrix; simpl_priv;
    repeat split; try reflexivity; try congruence.
Qed.

Lemma CreateSampler_fresh_witness :
  fresh_sampler_spec (Some sample_interop) sample_fmt GL_TEXTURE_2D false
                     sample_sampler.
Proof.
  apply (CreateSampler_fresh sample_env). vm_compute; reflexivity.
Defined.

(** X8. After a successful construction the texture count is the plane
    count of the chroma, and the conversion matrix is set up exactly for a
    YUV chroma other than XYZ12 when planes are not exposed; otherwise
    [yuv_color] is false and the matrix keeps the zeros of the allocation. *)
Theorem CreateSampler_conversion_setup E io f target expose p :
  CreateSampler E io f target expose = Some p ->
  conversion_setup_spec E f expose p.
Proof.
  unfold CreateSampler, opengl_fragment_shader_init, conversion_setup_spec.
  simpl_priv. intro H.
  destruct (vlc_fourcc_GetChromaDescription E (i_chroma f)) as [desc|];
    [|destruct (negb (calloc_ok E)); discriminate].
  repeat (break_match_in H; simpl_priv; try discriminate).
  all: injection H as <-; exists desc; simpl_priv;
    repeat match goal with
           | Hb : _ = true |- _ => rewrite Hb
           | Hb : _ = false |- _ => rewrite Hb
           end;
    repeat split; reflexivity.
Qed.

Lemma CreateSampler_conversion_setup_witness :
  conversion_setup_spec sample_env sample_fmt false sample_sampler.
Proof.
  apply (CreateSampler_conversion_setup sample_env (Some sample_interop)
           sample_fmt GL_TEXTURE_2D).
  vm_compute; reflexivity.
Defined.

(** ** Texture sizes *)

Lemma nth_set_case (m : list Z) (i j : nat) (v : Z) :
  nth j (set m i v) 0
  = if (j =? i)%nat && (j <? List.length m)%nat then v else nth j m 0.
Proof.
  destruct (Nat.eqb_spec j i) as [->|Hne]; cbn [andb].
  - destruct (Nat.ltb_spec i (List.length m)) as [Hlt|Hge].
    + apply nth_set_eq; exact Hlt.
    + rewrite !nth_overflow; rewrite ?length_set; auto.
  - apply nth_set_neq; auto.
Qed.

Lemma texture_sizes_filled_upto i vw0 vh0 tw0 th0 n :
  sizes_filled i n vw0 vh0 tw0 th0
    (fold_left
       (fun '(vw, vh, tw, th) j =>
          let cfg := nth j (texs i)
                         {| w := {| num := 0; den := 0 |};
                            h := {| num := 0; den := 0 |} |} in
          let pw := plane_size (i_visible_width (fmt_out i)) (w cfg) in
          let ph := plane_size (i_visible_height (fmt_out i)) (h cfg) in
          if supports_npot i
          then (set vw j pw, set vh j ph, set tw j pw, set th j ph)
          else (set vw j pw, set vh j ph,
                set tw j (vlc_align_pot pw), set th j (vlc_align_pot ph)))
       (seq 0 n) (vw0, vh0, tw0, th0)).
Proof.
  induction n as [|n IH].
  - cbn. repeat split; reflexivity.
  - rewrite seq_S, fold_left_app. cbn [fold_left Nat.add].
    destruct (fold_left _ (seq 0 n) (vw0, vh0, tw0, th0))
      as [[[vw vh] tw] th].
    unfold sizes_filled in IH |- *.
    destruct IH as (Lvw & Lvh & Ltw & Lth & IH).
    fold (visible_width_of i n). fold (visible_height_of i n).
    assert (Hcase : forall (m m0 : list Z) (v : Z) (P : nat -> Z) j,
               List.length m = List.length m0 ->
               P n = v ->
               (if (j <? n)%nat && (j <? List.length m0)%nat
                then nth j m 0 = P j else nth j m 0 = nth j m0 0) ->
               if (j <? S n)%nat && (j <? List.length m0)%nat
               then nth j (set m n v) 0 = P j
               else nth j (set m n v) 0 = nth j m0 0).
    { intros m m0 v P j Hl HP Hj. rewrite nth_set_case, Hl.
      destruct (Nat.eqb_spec j n) as [->|Hne]; cbn [andb].
      - replace (n <? S n)%nat with true by (symmetry; apply Nat.ltb_lt; lia).
        replace (n <? n)%nat with false in Hj
          by (symmetry; apply Nat.ltb_ge; lia).
        cbn [andb] in *. destruct (n <? List.length m0)%nat; auto.
      - replace (j <? S n)%nat with (j <? n)%nat; [exact Hj|].
        destruct (Nat.ltb_spec j n), (Nat.ltb_spec j (S n)); auto; lia. }
    destruct (supports_npot i);
      (split; [rewrite length_set; exact Lvw|]);
      (split; [rewrite length_set; exact Lvh|]);
      (split; [rewrite length_set; exact Ltw|]);
      (split; [rewrite length_set; exact Lth|]);
      intro j; destruct (IH j) as (H1 & H2 & H3 & H4);
      (split; [apply (Hcase _ _ _ (visible_width_of i)); auto|]);
      (split; [apply (Hcase _ _ _ (visible_height_of i)); auto|]);
      (split; [|]).
    + apply (Hcase _ _ _ (visible_width_of i)); auto.
    + apply (Hcase _ _ _ (visible_height_of i)); auto.
    + apply (Hcase _ _ _ (fun j => vlc_align_pot (visible_width_of i j))); auto.
    + apply (Hcase _ _ _ (fun j => vlc_align_pot (visible_height_of i j))); auto.
Qed.

Lemma nth_repeat_zero j n : nth j (repeat 0 n) 0 = 0.
Proof.
  revert j; induction n as [|n IH]; intros [|j]; cbn; auto.
Qed.

Lemma texture_sizes_filled i vw0 vh0 tw0 th0 :
  sizes_filled i (Z.to_nat (interop_tex_count i)) vw0 vh0 tw0 th0
               (texture_sizes i vw0 vh0 tw0 th0).
Proof. unfold texture_sizes. apply texture_sizes_filled_upto. Qed.

(** X9. On a context with non-power-of-two textures, a frame-driven sampler
    has, for each of its planes, texture width and height equal to the
    visible width and height, which are the visible size of the format times
    the plane ratio, rounded down; the slots of the other planes stay 0. *)
Theorem CreateSampler_npot_sizes E i f target expose p :
  CreateSampler E (Some i) f target expose = Some p ->
  supports_npot i = true ->
  npot_sizes_spec i p.
Proof.
  unfold CreateSampler, opengl_fragment_shader_init, npot_sizes_spec.
  simpl_priv. intros H Hnpot j.
  pose proof (texture_sizes_filled i
                (visible_widths calloc_priv) (visible_heights calloc_priv)
                (tex_widths calloc_priv) (tex_heights calloc_priv)) as Hfill.
  repeat (break_match_in H; simpl_priv; try discriminate).
  all: injection H as <-; simpl_priv.
  all: match goal with
       | Hc : negb (interop_tex_count _ =? ?c) = false |- _ =>
           apply negb_false_iff, Z.eqb_eq in Hc; rewrite <- Hc
       end.
  all: try match goal with
           | Hs : texture_sizes _ _ _ _ _ = _ |- _ => rewrite Hs in Hfill
           end.
  all: unfold sizes_filled in Hfill;
    destruct Hfill as (_ & _ & _ & _ & Hfill);
    specialize (Hfill j); rewrite Hnpot in Hfill;
    cbn [calloc_priv visible_widths visible_heights tex_widths tex_heights]
      in Hfill;
    rewrite !repeat_length, !nth_repeat_zero in Hfill;
    destruct ((j <? Z.to_nat (interop_tex_count i))%nat
              && (j <? PICTURE_PLANE_MAX)%nat);
    tauto.
Qed.

Lemma CreateSampler_npot_sizes_witness :
  npot_sizes_spec sample_interop sample_sampler.
Proof.
  apply (CreateSampler_npot_sizes sample_env sample_interop sample_fmt
           GL_TEXTURE_2D false); vm_compute; reflexivity.
Defined.

(** ** Teardown *)

(** X10. Deleting a sampler right after construction releases textures
    exactly when construction generated them: never for a texture-driven
    sampler or an interop that handles its textures, and otherwise the
    textures [vlc_gl_interop_GenerateTextures] returned, [tex_count] of them. *)
Theorem Delete_releases_what_construction_generated E io f target expose p :
  CreateSampler E io f target expose = Some p ->
  delete_matches_generation E io p.
Proof.
  unfold CreateSampler, opengl_fragment_shader_init,
    delete_matches_generation, vlc_gl_sampler_Delete.
  simpl_priv. intro H.
  repeat (break_match_in H; simpl_priv; try discriminate).
  all: injection H as <-; simpl_priv; try reflexivity.
  all: repeat match goal with
              | Hb : handle_texs_gen _ = _ |- _ => rewrite Hb
              | Hg : vlc_gl_interop_GenerateTextures _ _ _ = _ |- _ =>
                  rewrite Hg
              | Hc : negb (_ =? _) = false |- _ =>
                  apply negb_false_iff, Z.eqb_eq in Hc; rewrite Hc
              end; reflexivity.
Qed.

Lemma Delete_releases_what_construction_generated_witness :
  delete_matches_generation sample_env (Some sample_interop) sample_sampler.
Proof.
  apply (Delete_releases_what_construction_generated sample_env
           (Some sample_interop) sample_fmt GL_TEXTURE_2D false).
  vm_compute; reflexivity.
Defined.

(** ** What updates keep *)






(** ** Texture-driven updates: what is copied *)

Lemma memcpy_int_S dst src n :
  memcpy_int dst src (S n) = set (memcpy_int dst src n) n (nth n src 0).
Proof.
  unfold memcpy_int. rewrite seq_S, fold_left_app. reflexivity.
Qed.

Lemma memcpy_int_nth dst src n j :
  List.length (memcpy_int dst src n) = List.length dst
  /\ nth j (memcpy_int dst src n) 0
     = if (j <? n)%nat && (j <? List.length dst)%nat
       then nth j src 0 else nth j dst 0.
Proof.
  induction n as [|n [IHl IHn]].
  - split; reflexivity.
  - rewrite memcpy_int_S. split; [rewrite length_set; exact IHl|].
    rewrite nth_set_case, IHl, IHn.
    destruct (Nat.eqb_spec j n) as [->|Hne]; cbn [andb].
    + replace (n <? S n)%nat with true by (symmetry; apply Nat.ltb_lt; lia).
      replace (n <? n)%nat with false by (symmetry; apply Nat.ltb_ge; lia).
      cbn [andb]. destruct (n <? List.length dst)%nat; reflexivity.
    + replace (j <? S n)%nat with (j <? n)%nat; [reflexivity|].
      destruct (Nat.ltb_spec j n), (Nat.ltb_spec j (S n)); auto; lia.
Qed.

(** X12. On a texture-driven sampler [vlc_gl_sampler_UpdateTextures] copies the
    first [tex_count] texture names, widths and heights of its arguments and
    leaves the other slots, the configuration and the coordinate map as they
    were. *)
Theorem UpdateTextures_copies_tex_count_slots p texs widths heights :
  interop p = None ->
  textures_copied_spec p texs widths heights.
Proof.
  intro Hi. unfold textures_copied_spec, vlc_gl_sampler_UpdateTextures.
  rewrite Hi. eexists. split; [reflexivity|].
  unfold same_configuration. simpl_priv.
  split; [repeat split; auto|].
  split; [reflexivity|].
  intro j; cbv zeta.
  repeat split; apply memcpy_int_nth.
Qed.

Lemma UpdateTextures_copies_tex_count_slots_witness :
  textures_copied_spec
    (match vlc_gl_sampler_NewFromTexture2D sample_env sample_fmt false with
     | Some p => p
     | None => calloc_priv
     end)
    [7; 8; 9; 10] [1920; 960; 960; 1] [1080; 540; 540; 1].
Proof.
  apply UpdateTextures_copies_tex_count_slots. vm_compute; reflexivity.
Defined.

(** ** More on the conversion matrix *)

Lemma init_conv_matrix_overwrites m cs r :
  List.length m = 16%nat ->
  init_conv_matrix m cs r = init_conv_matrix (zeros 16) cs r.
Proof.
  intro H. explode16 m H. reflexivity.
Qed.

(** X13. The conversion matrix does not depend on what the sixteen floats held
    before: every entry is written. *)
Theorem yuv_conv_matrix_ignores_old_content m chroma desc cs :
  List.length m = 16%nat ->
  yuv_conv_matrix m chroma desc cs
  = yuv_conv_matrix (conv_matrix calloc_priv) chroma desc cs.
Proof.
  intro H. unfold yuv_conv_matrix, yuv_scaled_matrix.
  rewrite (init_conv_matrix_overwrites m) by exact H. reflexivity.
Qed.

Lemma yuv_conv_matrix_ignores_old_content_witness :
  yuv_conv_matrix (repeat (F32.of_Z 7) 16) VLC_CODEC_YV12 desc_I420_10L
                  COLOR_SPACE_BT601
  = yuv_conv_matrix (conv_matrix calloc_priv) VLC_CODEC_YV12 desc_I420_10L
                    COLOR_SPACE_BT601.
Proof.
  apply yuv_conv_matrix_ignores_old_content. reflexivity.
Defined.

(** X14. The bit-depth scaling and the U/V swap commute on any [float[16]]:
    the twelve scaled floats are the three columns among which the swap
    exchanges two. *)
Theorem scaling_and_swap_commute m r :
  List.length m = 16%nat ->
  scale_first_12 (swap_uv_columns m) r
  = swap_uv_columns (scale_first_12 m r).
Proof.
  intro H. explode16 m H. reflexivity.
Qed.

Lemma scaling_and_swap_commute_witness :
  scale_first_12
    (swap_uv_columns
       (init_conv_matrix (conv_matrix calloc_priv) COLOR_SPACE_BT601
                         COLOR_RANGE_LIMITED))
    (yuv_range_correction desc_I420_10L)
  = swap_uv_columns
      (scale_first_12
         (init_conv_matrix (conv_matrix calloc_priv) COLOR_SPACE_BT601
                           COLOR_RANGE_LIMITED)
         (yuv_range_correction desc_I420_10L)).
Proof.
  apply scaling_and_swap_commute. reflexivity.
Defined.

Lemma SF_same_eq a b : SF_same a b = true -> a = b.
Proof.
  destruct a, b; cbn; intro H; try discriminate H.
  - apply Bool.eqb_prop in H; congruence.
  - apply Bool.eqb_prop in H; congruence.
  - reflexivity.
  - apply andb_prop in H as [H He]; apply andb_prop in H as [Hs Hm].
    apply Bool.eqb_prop in Hs; apply Pos.eqb_eq in Hm; apply Z.eqb_eq in He.
    congruence.
Qed.

Lemma alpha_rowb_sound m : alpha_rowb m = true -> alpha_row m.
Proof.
  unfold alpha_rowb, alpha_row. intro H.
  apply andb_prop in H as [H H15]; apply andb_prop in H as [H H11];
    apply andb_prop in H as [H3 H7].
  repeat split; apply SF_same_eq; assumption.
Qed.

Lemma yuv_conv_matrix_staged m chroma desc cs :
  List.length m = 16%nat ->
  yuv_conv_matrix m chroma desc cs
  = staged_matrix cs
      ((pixel_size desc =? 2)
       && (negb (fourcc_eqb chroma VLC_CODEC_P010)
           && negb (fourcc_eqb chroma VLC_CODEC_P016)))
      (swap_uv chroma) (yuv_range_correction desc).
Proof.
  intro H. unfold yuv_conv_matrix, yuv_scaled_matrix, staged_matrix.
  rewrite (init_conv_matrix_overwrites m) by exact H.
  destruct (pixel_size desc =? 2); [|reflexivity].
  destruct (negb _ && negb _); reflexivity.
Qed.

(** X15. For every chroma, colour space and sample depth from 1 to 16 bits the
    fourth row of the conversion matrix is exactly [0, 0, 0, 1], after
    scaling and swap too. *)
Theorem conv_matrix_keeps_alpha_row m chroma desc cs :
  List.length m = 16%nat -> 1 <= pixel_bits desc <= 16 ->
  alpha_row (yuv_conv_matrix m chroma desc cs).
Proof.
  intros Hlen Hbits.
  rewrite yuv_conv_matrix_staged by exact Hlen.
  apply alpha_rowb_sound.
  generalize ((pixel_size desc =? 2)
              && (negb (fourcc_eqb chroma VLC_CODEC_P010)
                  && negb (fourcc_eqb chroma VLC_CODEC_P016))).
  generalize (swap_uv chroma).
  unfold yuv_range_correction.
  assert (Hcase : pixel_bits desc = 1 \/ pixel_bits desc = 2
                  \/ pixel_bits desc = 3 \/ pixel_bits desc = 4
                  \/ pixel_bits desc = 5 \/ pixel_bits desc = 6
                  \/ pixel_bits desc = 7 \/ pixel_bits desc = 8
                  \/ pixel_bits desc = 9 \/ pixel_bits desc = 10
                  \/ pixel_bits desc = 11 \/ pixel_bits desc = 12
                  \/ pixel_bits desc = 13 \/ pixel_bits desc = 14
                  \/ pixel_bits desc = 15 \/ pixel_bits desc = 16) by lia.
  repeat (destruct Hcase as [Hcase|Hcase];
          [rewrite Hcase; intros [|] [|]; destruct cs;
           vm_compute; reflexivity|]).
  rewrite Hcase; intros [|] [|]; destruct cs; vm_compute; reflexivity.
Qed.

Lemma conv_matrix_keeps_alpha_row_witness :
  alpha_row (yuv_conv_matrix (conv_matrix calloc_priv) VLC_CODEC_YV12
                             desc_I420_10L COLOR_SPACE_BT2020).
Proof.
  apply conv_matrix_keeps_alpha_row; [reflexivity|cbn; lia].
Defined.

(** X16. For 16-bit samples the correction factor is 1 and the matrix is
    bit for bit the one of [init_conv_matrix]. *)
Theorem sixteen_bit_samples_unscaled m chroma desc cs :
  List.length m = 16%nat -> pixel_bits desc = 16 ->
  yuv_scaled_matrix m chroma desc cs
  = init_conv_matrix m cs COLOR_RANGE_LIMITED.
Proof.
  intros Hlen Hbits.
  unfold yuv_scaled_matrix, yuv_range_correction.
  rewrite Hbits, (init_conv_matrix_overwrites m) by exact Hlen.
  destruct (pixel_size desc =? 2); [|reflexivity].
  destruct (negb (fourcc_eqb chroma VLC_CODEC_P010)
            && negb (fourcc_eqb chroma VLC_CODEC_P016)); [|reflexivity].
  destruct cs; vm_compute; reflexivity.
Qed.

Lemma sixteen_bit_samples_unscaled_witness :
  yuv_scaled_matrix (conv_matrix calloc_priv) (VLC_CODEC_other 0)
                    {| plane_count := 3; pixel_size := 2; pixel_bits := 16 |}
                    COLOR_SPACE_BT709
  = init_conv_matrix (conv_matrix calloc_priv) COLOR_SPACE_BT709
                     COLOR_RANGE_LIMITED.
Proof.
  apply sixteen_bit_samples_unscaled; reflexivity.
Defined.

(** ** Gray stays gray *)




(** ** Direction matrix *)

(** X18. When the linear part of the composite is the one of an orientation
    of the table, whatever the translation, the direction matrix is that
    linear part itself. *)
Theorem ComputeDirectionMatrix_of_orientation p o direction :
  mtx_all_defined p = true ->
  linear_part (mtx_all p) = linear_part (matrix_of_rows (orientation_rows o)) ->
  List.length direction = 4%nat ->
  vlc_gl_sampler_ComputeDirectionMatrix p direction
  = Some (linear_part (matrix_of_rows (orientation_rows o))).
Proof.
  intros Hd Hlin Hlen.
  unfold vlc_gl_sampler_ComputeDirectionMatrix. rewrite Hd. cbn [negb].
  unfold linear_part in Hlin at 1.
  injection Hlin as -> -> -> ->.
  do 4 (destruct direction as [|? direction]; [discriminate Hlen|]).
  destruct direction; [|discriminate Hlen].
  destruct o; vm_compute; reflexivity.
Qed.

(** X19. A composite whose first column is zero is not guarded against: the
    norm is 0 and the first column of the direction matrix is NaN. *)
Theorem ComputeDirectionMatrix_zero_column_is_nan p direction :
  mtx_all_defined p = true ->
  get (mtx_all p) 0 = F32.zero -> get (mtx_all p) 1 = F32.zero ->
  List.length direction = 4%nat ->
  direction_nan_spec p direction.
Proof.
  intros Hd H0 H1 Hlen.
  unfold direction_nan_spec, vlc_gl_sampler_ComputeDirectionMatrix.
  rewrite Hd, H0, H1. cbn [negb].
  do 4 (destruct direction as [|? direction]; [discriminate Hlen|]).
  destruct direction; [|discriminate Hlen].
  eexists; split; [reflexivity|]. split; reflexivity.
Qed.

Lemma ComputeDirectionMatrix_zero_column_is_nan_witness :
  direction_nan_spec
    (after_picture sample_sampler sample_picture sample_reply) (zeros 4).
Proof.
  apply ComputeDirectionMatrix_zero_column_is_nan; vm_compute; reflexivity.
Defined.

Lemma ComputeDirectionMatrix_of_orientation_witness :
  vlc_gl_sampler_ComputeDirectionMatrix rotated_sampler (zeros 4)
  = Some (linear_part (matrix_of_rows (orientation_rows ORIENT_ROTATED_90))).
Proof.
  apply ComputeDirectionMatrix_of_orientation; vm_compute; reflexivity.
Defined.


